(** * Calci.py: the grade engine of [app.py]

    A shallow embedding of the computational core of the single-file
    Streamlit application [app.py]: the grade table and its lookup
    ([percent_to_grade_point]), the semester and cumulative averages
    ([sgpa_from_df] and the "Compute CGPA" block), the country conversion
    ([convert_cgpa_to_countries]), the target planner and the history
    file ([load_history], [save_history]).

    Numbers.  Python floats are modelled by exact rationals extended with
    the two infinities and NaN; binary rounding, overflow and the sign of
    zero are outside the model.  Python's [round(x, n)] is modelled as
    rounding to the nearest multiple of [10^-n], ties to even. *)

From Stdlib Require Import QArith Qround Qabs Lqa Lia.
From Stdlib Require Import Ascii String.
From stdpp Require Import base option gmap strings list pretty.

Local Open Scope Z_scope.

(** ** Exceptions and results *)

Inductive exn :=
  | TypeError
  | ValueError
  | AttributeError
  | FileNotFoundError
  | JSONDecodeError
  | OSError.

Inductive result (A : Type) :=
  | Ok (a : A)
  | Raise (e : exn).
Arguments Ok {A} a.
Arguments Raise {A} e.

Definition rbind {A B} (r : result A) (k : A -> result B) : result B :=
  match r with
  | Ok a => k a
  | Raise e => Raise e
  end.

Definition raises {A} (r : result A) : Prop := exists e, r = Raise e.

(** ** Floats *)

Inductive pyfloat :=
  | Fin (q : Q)
  | Inf (neg : bool)
  | NaN.

(** Ordering; [None] is "unordered", the outcome of every comparison with NaN. *)
Definition fcmp (a b : pyfloat) : option comparison :=
  match a, b with
  | NaN, _ | _, NaN => None
  | Fin x, Fin y => Some (x ?= y)%Q
  | Inf s, Inf t => Some (if s then (if t then Eq else Lt) else (if t then Gt else Eq))
  | Inf s, Fin _ => Some (if s then Lt else Gt)
  | Fin _, Inf t => Some (if t then Gt else Lt)
  end.

Definition fle (a b : pyfloat) : bool :=
  match fcmp a b with Some Lt | Some Eq => true | _ => false end.
Definition flt (a b : pyfloat) : bool :=
  match fcmp a b with Some Lt => true | _ => false end.
Definition fge (a b : pyfloat) : bool := fle b a.
Definition fgt (a b : pyfloat) : bool := flt b a.
Definition feqb (a b : pyfloat) : bool :=
  match fcmp a b with Some Eq => true | _ => false end.

Definition Qsign_neg (q : Q) : bool :=
  match (q ?= 0)%Q with Lt => true | _ => false end.
Definition Qis_zero (q : Q) : bool :=
  match (q ?= 0)%Q with Eq => true | _ => false end.

Definition fneg (a : pyfloat) : pyfloat :=
  match a with
  | Fin x => Fin (- x)
  | Inf s => Inf (negb s)
  | NaN => NaN
  end.

Definition fadd (a b : pyfloat) : pyfloat :=
  match a, b with
  | NaN, _ | _, NaN => NaN
  | Fin x, Fin y => Fin (x + y)
  | Inf s, Fin _ | Fin _, Inf s => Inf s
  | Inf s, Inf t => if Bool.eqb s t then Inf s else NaN
  end.

Definition fsub (a b : pyfloat) : pyfloat := fadd a (fneg b).

Definition fmul (a b : pyfloat) : pyfloat :=
  match a, b with
  | NaN, _ | _, NaN => NaN
  | Fin x, Fin y => Fin (x * y)
  | Inf s, Fin y | Fin y, Inf s =>
      if Qis_zero y then NaN else Inf (xorb s (Qsign_neg y))
  | Inf s, Inf t => Inf (xorb s t)
  end.

(** Division as numpy's float64 has it.  Python's own float division
    raises on a zero divisor; every Python-float division of [app.py]
    divides by a non-zero literal. *)
Definition fdiv (a b : pyfloat) : pyfloat :=
  match a, b with
  | NaN, _ | _, NaN => NaN
  | Fin x, Fin y =>
      if Qis_zero y then (if Qis_zero x then NaN else Inf (Qsign_neg x))
      else Fin (x / y)
  | Fin _, Inf _ => Fin 0
  | Inf s, Fin y => Inf (xorb s (Qsign_neg y))
  | Inf _, Inf _ => NaN
  end.

(** [round(x)] of a rational to the nearest integer, ties to even. *)
Definition round_half_even (q : Q) : Z :=
  let f := Qfloor q in
  match (q - inject_Z f ?= 1 # 2)%Q with
  | Lt => f
  | Gt => f + 1
  | Eq => if Z.even f then f else f + 1
  end.

Definition pow10 (n : nat) : Z := 10 ^ Z.of_nat n.

Definition Qround_to (ndigits : nat) (q : Q) : Q :=
  Qred (inject_Z (round_half_even (q * inject_Z (pow10 ndigits))) / inject_Z (pow10 ndigits)).

(** [round(x, ndigits)] *)
Definition py_round (x : pyfloat) (ndigits : nat) : pyfloat :=
  match x with
  | Fin q => Fin (Qround_to ndigits q)
  | _ => x
  end.

(** ** Values and the [float()] conversion *)

Inductive pyval :=
  | VNone
  | VBool (b : bool)
  | VInt (z : Z)
  | VFloat (f : pyfloat)
  | VStr (s : string).

(** Python's reading of a string as a float: surrounding white space is
    dropped, then an optional sign, then [inf], [infinity], [nan] in any
    case, or decimal digits with an optional fraction and exponent.
    Digit-group underscores and non-ASCII digits are not modelled. *)

Definition is_space (c : ascii) : bool :=
  let n := N_of_ascii c in ((n =? 32) || ((9 <=? n) && (n <=? 13)))%N.

Definition digit_of (c : ascii) : option Z :=
  let n := Z.of_N (N_of_ascii c) in
  if (48 <=? n) && (n <=? 57) then Some (n - 48) else None.

Definition lower (c : ascii) : ascii :=
  let n := N_of_ascii c in
  if ((65 <=? n) && (n <=? 90))%N then ascii_of_N (n + 32) else c.

Fixpoint lstrip (cs : list ascii) : list ascii :=
  match cs with
  | c :: cs' => if is_space c then lstrip cs' else cs
  | [] => []
  end.

Definition strip (cs : list ascii) : list ascii := rev (lstrip (rev (lstrip cs))).

Fixpoint take_digits (cs : list ascii) : list Z * list ascii :=
  match cs with
  | c :: cs' =>
      match digit_of c with
      | Some d => let '(ds, r) := take_digits cs' in (d :: ds, r)
      | None => ([], cs)
      end
  | [] => ([], [])
  end.

Definition take_sign (cs : list ascii) : bool * list ascii :=
  match cs with
  | "-"%char :: r => (true, r)
  | "+"%char :: r => (false, r)
  | _ => (false, cs)
  end.

Definition digits_value (ds : list Z) : Z :=
  fold_left (fun acc d => 10 * acc + d) ds 0.

Definition parse_exponent (cs : list ascii) : option Z :=
  match cs with
  | [] => Some 0
  | c :: r =>
      if Ascii.eqb (lower c) "e" then
        let '(neg, r1) := take_sign r in
        match take_digits r1 with
        | (d :: ds, []) =>
            Some (if neg : bool then - digits_value (d :: ds) else digits_value (d :: ds))
        | _ => None
        end
      else None
  end.

Definition parse_number (cs : list ascii) : option Q :=
  let '(ip, r1) := take_digits cs in
  let '(fp, r2) := match r1 with
                   | "."%char :: r => take_digits r
                   | _ => ([], r1)
                   end in
  match ip ++ fp with
  | [] => None
  | ds =>
      match parse_exponent r2 with
      | Some e =>
          Some (Qred (inject_Z (digits_value ds) * Qpower 10 (e - Z.of_nat (length fp))))
      | None => None
      end
  end.

Definition float_of_string (s : string) : option pyfloat :=
  let '(neg, body) := take_sign (strip (list_ascii_of_string s)) in
  let word := string_of_list_ascii (map lower body) in
  if String.eqb word "inf" || String.eqb word "infinity" then Some (Inf neg)
  else if String.eqb word "nan" then Some NaN
  else match parse_number body with
       | Some q => Some (Fin (if neg : bool then - q else q)%Q)
       | None => None
       end.

(** [float(v)]: [None] is a TypeError, an unreadable string a ValueError. *)
Definition py_float (v : pyval) : result pyfloat :=
  match v with
  | VNone => Raise TypeError
  | VBool b => Ok (Fin (if b then 1 else 0))
  | VInt z => Ok (Fin (inject_Z z))
  | VFloat f => Ok f
  | VStr s =>
      match float_of_string s with
      | Some f => Ok f
      | None => Raise ValueError
      end
  end.

(** ** The grade table and its lookup *)

Definition GPA_DECIMALS : nat := 3.

(** Rows are [(min, max, label, grade point)], in the order of the source. *)
Definition PERCENT_TO_GRADE : list (Q * Q * string * Q) :=
  [ (90, 100, "O", 10.0);
    (80, 89.99, "A+", 9.0);
    (70, 79.99, "A", 8.0);
    (60, 69.99, "B+", 7.0);
    (50, 59.99, "B", 6.0);
    (45, 49.99, "C", 5.0);
    (40, 44.99, "D", 4.0);
    (0, 39.99, "F", 0.0) ]%Q.

(** The [for] loop of [percent_to_grade_point]: the first row with
    [mn <= p <= mx] decides; falling off the table gives [("", nan)]. *)
Fixpoint grade_scan (p : pyfloat) (table : list (Q * Q * string * Q)) : string * pyfloat :=
  match table with
  | (mn, mx, lbl, gp) :: rest =>
      if fle (Fin mn) p && fle p (Fin mx) then (lbl, Fin gp) else grade_scan p rest
  | [] => ("", NaN)
  end.

Definition percent_to_grade_point (percent : pyval) : string * pyfloat :=
  match py_float percent with
  | Raise _ => ("", NaN)
  | Ok p => grade_scan p PERCENT_TO_GRADE
  end.

(** The call with the exceptions of its body explicit: the bare
    [except] turns whatever [float()] raises into the returned pair, and
    nothing else in the body raises, so the call always returns. *)
Definition percent_to_grade_point_call (percent : pyval) : result (string * pyfloat) :=
  match py_float percent with
  | Raise _ => Ok ("", NaN)
  | Ok p => Ok (grade_scan p PERCENT_TO_GRADE)
  end.

(** ** Subject total: the "Compute Semester SGPA" loop body

    The marks come from integer inputs.  The two mid-term marks are
    averaged, the presentation mark is added, the sum is capped at 50;
    the final exam mark is added and the total is capped at 100. *)
Definition subject_total (mid1 mid2 pres see : Z) : pyfloat :=
  let m1 := Fin (inject_Z mid1) in
  let m2 := Fin (inject_Z mid2) in
  let avg_mid := fdiv (fadd m1 m2) (Fin 2.0) in
  let cie := fadd avg_mid (Fin (inject_Z pres)) in
  let cie := if fgt cie (Fin 50.0) then Fin 50.0 else cie in
  let total := fadd cie (Fin (inject_Z see)) in
  if fgt total (Fin 100.0) then Fin 100.0 else total.

(** ** Semester average: [sgpa_from_df] *)

(** A row of the data frame; only the two columns the function reads. *)
Record row := { Credits : pyval; Grade_Point : pyval }.

(** [pd.to_numeric(_, errors="coerce")] on one cell: what cannot be read
    as a number becomes NaN. *)
Definition to_numeric_coerce (v : pyval) : pyfloat :=
  match v with
  | VNone => NaN
  | VBool b => Fin (if b then 1 else 0)
  | VInt z => Fin (inject_Z z)
  | VFloat f => f
  | VStr s =>
      match float_of_string s with
      | Some f => f
      | None => NaN
      end
  end.

Definition notna (f : pyfloat) : bool :=
  match f with NaN => false | _ => true end.

(** [.fillna(0)] on one cell *)
Definition fillna0 (f : pyfloat) : pyfloat :=
  match f with NaN => Fin 0 | _ => f end.

(** [Series.sum()]: NaN entries are skipped, the empty sum is 0. *)
Definition series_sum (l : list pyfloat) : pyfloat :=
  fold_left fadd (List.filter notna l) (Fin 0).

Definition sgpa_from_df (df : list row) : option pyfloat :=
  let df2 := map (fun r => (fillna0 (to_numeric_coerce (Credits r)),
                            to_numeric_coerce (Grade_Point r))) df in
  let used := List.filter (fun r => notna (snd r)) df2 in
  let total_credits := series_sum (map fst used) in
  if feqb total_credits (Fin 0) then None
  else
    let sgpa := fdiv (series_sum (map (fun r => fmul (snd r) (fst r)) used)) total_credits in
    Some (py_round sgpa GPA_DECIMALS).

(** ** Outcomes shown by the pages: [st.error] or [st.success] *)

Inductive st_outcome (A : Type) :=
  | StError (msg : string)
  | StSuccess (a : A).
Arguments StError {A} msg.
Arguments StSuccess {A} a.

(** ** Cumulative average: the "Compute CGPA" block *)

Record sem_row := { sem : Z; sgpa : pyfloat; credits : Z }.

Definition sum_Z (l : list Z) : Z := fold_left Z.add l 0.

Definition compute_cgpa (sems_data : list sem_row) : st_outcome pyfloat :=
  let df_valid := List.filter (fun r => fgt (sgpa r) (Fin 0)) sems_data in
  let total_credits := sum_Z (map credits df_valid) in
  if total_credits =? 0 then
    StError "No credits entered. CGPA requires credit-weighted average."
  else
    StSuccess
      (py_round
         (fdiv (series_sum (map (fun r => fmul (sgpa r) (Fin (inject_Z (credits r)))) df_valid))
               (Fin (inject_Z total_credits)))
         GPA_DECIMALS).

(** ** Country conversion: [convert_cgpa_to_countries] *)

Definition TOP_COUNTRIES : list string :=
  [ "United States"; "Canada"; "United Kingdom"; "Germany"; "Australia";
    "Netherlands"; "Sweden"; "France"; "Singapore"; "New Zealand" ].

Definition canada_gpa (pct : pyfloat) : Q :=
  (if fge pct (Fin 90) then 4.0
   else if fge pct (Fin 85) then 3.7
   else if fge pct (Fin 80) then 3.3
   else if fge pct (Fin 75) then 3.0
   else if fge pct (Fin 70) then 2.7
   else 2.0)%Q.

Definition uk_class (pct : pyfloat) : string :=
  if fge pct (Fin 70) then "First"
  else if fge pct (Fin 60) then "2:1"
  else if fge pct (Fin 50) then "2:2"
  else if fge pct (Fin 40) then "Third"
  else "Fail".

Definition australia_gpa (pct : pyfloat) : Z :=
  if fge pct (Fin 85) then 7
  else if fge pct (Fin 75) then 6
  else if fge pct (Fin 65) then 5
  else if fge pct (Fin 50) then 4
  else 2.

Definition sweden_grade (pct : pyfloat) : Z :=
  if fge pct (Fin 90) then 5
  else if fge pct (Fin 75) then 4
  else if fge pct (Fin 60) then 3
  else if fge pct (Fin 50) then 2
  else 1.

Definition convert_cgpa_to_countries (cgpa10 : pyval)
  : result (gmap string (gmap string pyval)) :=
  match cgpa10 with
  | VNone => Ok ∅
  | _ =>
      rbind (py_float cgpa10) (fun cg =>
        let pct := fmul cg (Fin 10) in
        let out : gmap string (gmap string pyval) := ∅ in
        let out := <["United States" :=
                     {[ "scale" := VStr "4.0";
                        "gpa" := VFloat (py_round (fmul (fdiv cg (Fin 10.0)) (Fin 4.0)) 2) ]}]> out in
        let can := canada_gpa pct in
        let out := <["Canada" := {[ "scale" := VStr "4.0"; "gpa" := VFloat (Fin can) ]}]> out in
        let uk := uk_class pct in
        let out := <["United Kingdom" := {[ "classification" := VStr uk ]}]> out in
        let ger := py_round (fadd (Fin 1) (fdiv (fmul (Fin 3) (fsub (Fin 100) pct)) (Fin 100))) 2 in
        let out := <["Germany" := {[ "grade" := VFloat ger ]}]> out in
        let aus := australia_gpa pct in
        let out := <["Australia" := {[ "scale" := VStr "7"; "gpa" := VInt aus ]}]> out in
        let out := <["Netherlands" :=
                     {[ "scale" := VStr "10";
                        "score" := VFloat (py_round (fdiv pct (Fin 10)) 2) ]}]> out in
        let sw := sweden_grade pct in
        let out := <["Sweden" := {[ "grade" := VInt sw ]}]> out in
        let out := <["France" := {[ "percent" := VFloat pct ]}]> out in
        let out := <["Singapore" :=
                     {[ "scale" := VStr "4.0";
                        "gpa" := VFloat (py_round (fmul (fdiv cg (Fin 10.0)) (Fin 4.0)) 2) ]}]> out in
        let out := <["New Zealand" := {[ "scale" := VStr "7"; "gpa" := VInt aus ]}]> out in
        Ok out)
  end.

(** [conv[country]["gpa"]], when both keys are there *)
Definition payload_field (out : gmap string (gmap string pyval)) (country field : string)
  : option pyval :=
  match out !! country with
  | Some payload => payload !! field
  | None => None
  end.

(** ** Target planner: the "needed" computation *)

Definition fabs (a : pyfloat) : pyfloat :=
  match a with
  | Fin x => Fin (Qabs x)
  | Inf _ => Inf false
  | NaN => NaN
  end.

(** Python's two-argument [min] and [max]: the first argument stays
    unless the second is strictly smaller (strictly larger). *)
Definition py_min (a b : pyfloat) : pyfloat := if flt b a then b else a.
Definition py_max (a b : pyfloat) : pyfloat := if fgt b a then b else a.

(** The loop that looks for the row of the target grade point and keeps
    its lower percent bound. *)
Fixpoint find_lower (target_gp : pyfloat) (table : list (Q * Q * string * Q)) : option Q :=
  match table with
  | (mn, mx, lbl, gp) :: rest =>
      if flt (fabs (fsub (Fin gp) target_gp)) (Fin 1e-6) then Some mn
      else find_lower target_gp rest
  | [] => None
  end.

Definition planner_needed (cie target_gp : pyfloat) : st_outcome pyfloat :=
  match find_lower target_gp PERCENT_TO_GRADE with
  | None => StError "Target not valid."
  | Some lower =>
      let needed := fsub (Fin lower) cie in
      StSuccess (py_max (Fin 0.0) (py_min (Fin 50.0) needed))
  end.

(** ** The history file: [load_history], [save_history] *)

(** What [json.loads] returns and [json.dumps] accepts. *)
#[local] Set Warnings "-register-all".
Inductive json :=
  | JNull
  | JBool (b : bool)
  | JInt (z : Z)
  | JFloat (f : pyfloat)
  | JStr (s : string)
  | JList (items : list json)
  | JDict (fields : list (string * json)).

(** A file of the [results/] folder, seen through [json.loads]: its text
    is either rejected by the parser or read as a value.  Writing
    [json.dumps(v)] leaves a text that reads back as [v]. *)
Inductive file :=
  | NotJson
  | Json (v : json).

Definition HISTORY_FILE : string := "history.json".

(** Computations over the [results/] folder that may raise: a raise
    keeps the folder as it was at that point. *)
Definition io (A : Type) : Type := gmap string file -> result A * gmap string file.

Definition io_ret {A} (a : A) : io A := fun fs => (Ok a, fs).
Definition io_raise {A} (e : exn) : io A := fun fs => (Raise e, fs).
Definition io_bind {A B} (m : io A) (k : A -> io B) : io B :=
  fun fs =>
    match m fs with
    | (Ok a, fs') => k a fs'
    | (Raise e, fs') => (Raise e, fs')
    end.
(** [try: m except Exception: h] *)
Definition io_try {A} (m : io A) (h : exn -> io A) : io A :=
  fun fs =>
    match m fs with
    | (Ok a, fs') => (Ok a, fs')
    | (Raise e, fs') => h e fs'
    end.

#[export] Instance io_mret : MRet io := @io_ret.
#[export] Instance io_mbind : MBind io := fun A B k m => io_bind m k.

(** [json.loads(path.read_text(encoding="utf-8"))] *)
Definition read_json (path : string) : io json :=
  fun fs =>
    match fs !! path with
    | None => (Raise FileNotFoundError, fs)
    | Some NotJson => (Raise JSONDecodeError, fs)
    | Some (Json v) => (Ok v, fs)
    end.

(** [path.write_text(json.dumps(v, indent=2), encoding="utf-8")] *)
Definition write_json (path : string) (v : json) : io unit :=
  fun fs => (Ok tt, <[path := Json v]> fs).

Definition load_history : io json :=
  io_try (read_json HISTORY_FILE) (fun _ => io_ret (JList [])).

Definition save_history (history : json) : io unit :=
  write_json HISTORY_FILE history.

(** [history.append(entry)]: only a list has the method. *)
Definition list_append (history entry : json) : io json :=
  match history with
  | JList items => io_ret (JList (items ++ [entry]))
  | _ => io_raise AttributeError
  end.

(** The sequence every page uses to record an entry (saving a semester,
    saving a plan, rating the application). *)
Definition append_history (entry : json) : io unit :=
  history ← load_history;
  history' ← list_append history entry;
  save_history history'.

(** The "Reset History" block: every file of the folder is unlinked,
    failures being ignored, and an empty history is written.
    [unlink_fails] tells for which names the unlink raises. *)
Definition unlink_all (unlink_fails : string -> bool) : io unit :=
  fun fs => (Ok tt, filter (fun kv => unlink_fails kv.1 = true) fs).

Definition reset_history (unlink_fails : string -> bool) : io unit :=
  unlink_all unlink_fails;; save_history (JList []).

(** ** The semester page: "Compute Semester SGPA & Save" *)

(** One subject as the form collects it; all marks are integer inputs. *)
Record subject := {
  Subject : string;
  subject_credits : Z;
  Mid1_out_of_40 : Z;
  Mid2_out_of_40 : Z;
  Presentation_out_of_10 : Z;
  SEE_out_of_50 : Z
}.

(** The row built for a subject: its credits and the grade point of its
    total (the other columns only go to the CSV and PDF files). *)
Definition subject_row (s : subject) : row :=
  let total := subject_total (Mid1_out_of_40 s) (Mid2_out_of_40 s)
                 (Presentation_out_of_10 s) (SEE_out_of_50 s) in
  let '(grade_label, gp) := percent_to_grade_point (VFloat total) in
  {| Credits := VInt (subject_credits s); Grade_Point := VFloat gp |}.

(** [sgpa_from_df(pd.DataFrame(rows))] *)
Definition semester_sgpa (subjects : list subject) : option pyfloat :=
  sgpa_from_df (map subject_row subjects).

(** The entry a saved semester adds to the history.  [student],
    [hallticket] and [program] are what the session holds (a string, or
    null); [csv] and [pdf] are the paths of the files written. *)
Definition sgpa_entry (ts : string) (student hallticket program : json) (sem : Z)
    (sgpa : pyfloat) (csv : string) (pdf : option string) : json :=
  JDict [ ("timestamp", JStr ts);
          ("student", student);
          ("hallticket", hallticket);
          ("program", program);
          ("semester", JStr ("Sem" +:+ pretty sem));
          ("sgpa", JFloat sgpa);
          ("csv", JStr csv);
          ("pdf", match pdf with Some path => JStr path | None => JNull end);
          ("rating", JNull) ].

(** A name that designates a file of the folder itself: the names are
    built from the student's name, which is free text, and a name with a
    path separator designates a file somewhere else. *)
Definition plain_file_name (name : string) : bool :=
  negb (existsb (Ascii.eqb "/") (list_ascii_of_string name)).

(** [save_csv] and the PDF write.  The write raises for some names (a
    directory that does not exist, a name that is too long, ...):
    [write_fails] tells for which; otherwise the folder gets a file that
    is not JSON. *)
Definition save_file (write_fails : string -> bool) (name : string) : io unit :=
  fun fs =>
    if write_fails name then (Raise OSError, fs)
    else (Ok tt, <[name := NotJson]> fs).

(** The button's handler.  [ts] is the time stamp, [csv_name] the name of
    the CSV file, [pdf_name] the name of the PDF file when reportlab is
    installed.  An exception of a write is not caught: it ends the run
    before the history is touched. *)
Definition semester_page (write_fails : string -> bool) (ts : string)
    (student hallticket program : json) (sem : Z)
    (csv_name : string) (pdf_name : option string) (subjects : list subject)
  : io (st_outcome pyfloat) :=
  match semester_sgpa subjects with
  | None => mret (StError "Could not compute SGPA (check credits).")
  | Some sgpa =>
      save_file write_fails csv_name;;
      match pdf_name with
      | Some name => save_file write_fails name
      | None => mret tt
      end;;
      append_history
        (sgpa_entry ts student hallticket program sem sgpa
           ("results/" +:+ csv_name)
           (match pdf_name with Some name => Some ("results/" +:+ name) | None => None end));;
      mret (StSuccess sgpa)
  end.

(** ** Ratings: the planner's and the application's entries, the
    administrator's average *)

(** [d.get(key)] on a JSON object; a missing key gives [None]. *)
Fixpoint assoc_get (key : string) (fields : list (string * json)) : option json :=
  match fields with
  | (k, v) :: rest => if String.eqb k key then Some v else assoc_get key rest
  | [] => None
  end.

Definition dict_get (d : json) (key : string) : result json :=
  match d with
  | JDict fields =>
      match assoc_get key fields with
      | Some v => Ok v
      | None => Ok JNull
      end
  | _ => Raise AttributeError
  end.

Definition is_null (v : json) : bool :=
  match v with JNull => true | _ => false end.

(** [[h.get("rating") for h in history if h.get("rating") is not None]] *)
Fixpoint ratings_of (history : list json) : result (list json) :=
  match history with
  | [] => Ok []
  | h :: rest =>
      rbind (dict_get h "rating") (fun r =>
      rbind (ratings_of rest) (fun rs =>
      Ok (if is_null r then rs else r :: rs)))
  end.

(** The value of a JSON number in an addition; anything else is a TypeError. *)
Definition json_number (v : json) : result pyfloat :=
  match v with
  | JInt z => Ok (Fin (inject_Z z))
  | JFloat f => Ok f
  | JBool b => Ok (Fin (if b then 1 else 0))
  | _ => Raise TypeError
  end.

(** [sum(ratings)] *)
Definition py_sum (l : list json) : result pyfloat :=
  fold_left (fun acc v => rbind acc (fun a => rbind (json_number v) (fun x => Ok (fadd a x))))
            l (Ok (Fin 0)).

(** The administrator's figure: [None] stands for "No ratings recorded
    yet", otherwise [sum(ratings)/len(ratings)]. *)
Definition average_rating (history : list json) : result (option pyfloat) :=
  rbind (ratings_of history) (fun rs =>
    match rs with
    | [] => Ok None
    | _ =>
        rbind (py_sum rs) (fun total =>
          Ok (Some (fdiv total (Fin (inject_Z (Z.of_nat (length rs)))))))
    end).

(** Truth value of a JSON value in a condition. *)
Definition json_truthy (v : json) : bool :=
  match v with
  | JNull => false
  | JBool b => b
  | JInt z => negb (z =? 0)
  | JFloat (Fin q) => negb (Qis_zero q)
  | JFloat _ => true
  | JStr s => negb (String.eqb s "")
  | JList items => match items with [] => false | _ => true end
  | JDict fields => match fields with [] => false | _ => true end
  end.

(** [value or ""] on what the session holds. *)
Definition or_empty (v : json) : json :=
  if json_truthy v then v else JStr "".

(** The entry of "Submit Rating"; the slider gives an integer from 1 to 5. *)
Definition rating_entry (ts : string) (student hallticket program : json) (rating : Z)
    (feedback : string) : json :=
  JDict [ ("timestamp", JStr ts);
          ("student", or_empty student);
          ("hallticket", or_empty hallticket);
          ("program", or_empty program);
          ("action", JStr "app_rating");
          ("rating", JInt rating);
          ("feedback", JStr feedback) ].

Definition submit_rating (ts : string) (student hallticket program : json) (rating : Z)
    (feedback : string) : io unit :=
  append_history (rating_entry ts student hallticket program rating feedback).

(** The three study steps of a difficulty; anything but "Easy" and
    "Moderate" is handled as "Hard". *)
Definition study_steps (diff : string) : list string :=
  if String.eqb diff "Easy" then
    [ "Revise lecture notes (2 sessions of 1 hour)";
      "Practice 10 MCQs & 2 previous year problems";
      "Quick concept map & 30-min flashcards" ]
  else if String.eqb diff "Moderate" then
    [ "Detailed notes + 3 practice problems";
      "Timed mock test (40 mins) + review mistakes";
      "Group study session (60 mins) focusing on weak topics" ]
  else
    [ "Deep dive: textbook chapters + worked examples";
      "Daily problem set (5 problems) for 7 days";
      "One-on-one coaching or peer tutoring" ].

(** [d[key] = v] on a JSON object: an existing key keeps its place. *)
Fixpoint assoc_set (key : string) (v : json) (fields : list (string * json))
  : list (string * json) :=
  match fields with
  | (k, w) :: rest =>
      if String.eqb k key then (k, v) :: rest else (k, w) :: assoc_set key v rest
  | [] => [(key, v)]
  end.

(** The loop that fills [plans_text] from the rows [(subject, difficulty)]. *)
Definition plans_text (plan_rows : list (string * string)) : list (string * json) :=
  fold_left (fun plans r =>
               assoc_set r.1
                 (JDict [ ("difficulty", JStr r.2);
                          ("steps", JList (map JStr (study_steps r.2))) ])
                 plans)
            plan_rows [].

(** The entry of "Create Plan & Save Rating". *)
Definition planner_entry (ts : string) (student hallticket program : json)
    (target_gp needed : pyfloat) (plan_rows : list (string * string)) (rating : Z) : json :=
  JDict [ ("timestamp", JStr ts);
          ("student", student);
          ("hallticket", hallticket);
          ("program", program);
          ("action", JStr "planner");
          ("target_gp", JFloat target_gp);
          ("needed_in_see", JFloat needed);
          ("plan_items", JDict (plans_text plan_rows));
          ("rating", JInt rating) ].

(** The planner page when its button is pressed: nothing is saved for a
    target that is no grade point of the table. *)
Definition planner_page (ts : string) (student hallticket program : json)
    (cie target_gp : pyfloat) (plan_rows : list (string * string)) (rating : Z)
  : io (st_outcome pyfloat) :=
  match planner_needed cie target_gp with
  | StError msg => mret (StError msg)
  | StSuccess needed =>
      append_history
        (planner_entry ts student hallticket program target_gp needed plan_rows rating);;
      mret (StSuccess needed)
  end.

(** ** The conversion page's advice for the United States *)

Inductive advice :=
  | Excellent
  | Good
  | Improve.

(** Truth value of a number or [None] in a condition. *)
Definition py_truthy (v : option pyval) : bool :=
  match v with
  | Some (VFloat (Fin q)) => negb (Qis_zero q)
  | Some (VFloat _) => true
  | Some (VInt z) => negb (z =? 0)
  | Some (VBool b) => b
  | Some (VStr s) => negb (String.eqb s "")
  | Some VNone | None => false
  end.

(** [usg >= bound] for the values a [gpa] field holds; a string cannot
    be compared with a number. *)
Definition py_ge (v : option pyval) (bound : Q) : result bool :=
  match v with
  | Some (VFloat f) => Ok (fge f (Fin bound))
  | Some (VInt z) => Ok (fge (Fin (inject_Z z)) (Fin bound))
  | Some (VBool b) => Ok (fge (Fin (if b then 1 else 0)) (Fin bound))
  | _ => Raise TypeError
  end.

(** [usg = conv.get("United States", {}).get("gpa")] and the three-way
    message; [a and b] does not evaluate [b] when [a] is false. *)
Definition us_advice (conv : gmap string (gmap string pyval)) : result advice :=
  let usg := payload_field conv "United States" "gpa" in
  rbind (if py_truthy usg then py_ge usg 3.5 else Ok false) (fun excellent =>
    if excellent then Ok Excellent
    else
      rbind (if py_truthy usg then py_ge usg 3.0 else Ok false) (fun good =>
        if good then Ok Good else Ok Improve)).

(** The "Convert" button: the payload shown for the selected country
    ([None] stands for "Conversion not found") and, for the United
    States only, the advice. *)
Definition conversion_page (cgpa_input : pyval) (country : string)
  : result (option (gmap string pyval) * option advice) :=
  rbind (convert_cgpa_to_countries cgpa_input) (fun conv =>
    if String.eqb country "United States" then
      rbind (us_advice conv) (fun a => Ok (conv !! country, Some a))
    else Ok (conv !! country, None)).

(** ** The saved-results page: "Delete"

    [f.unlink()] on a file of the folder; the page lists every file of
    the folder, the history file included. *)
Definition delete_file (name : string) : io unit :=
  fun fs =>
    match fs !! name with
    | Some _ => (Ok tt, delete name fs)
    | None => (Raise FileNotFoundError, fs)
    end.

(** ** The grade bands as the specification words them

    [[90,100] -> O/10], then half-open ranges [[80,90) -> A+/9] down to
    [[0,40) -> F/0]. *)

Definition Qltb (a b : Q) : bool := negb (Qle_bool b a).

Definition spec_band (p : Q) : option (string * Q) :=
  (if Qle_bool 90 p && Qle_bool p 100 then Some ("O", 10.0)
   else if Qle_bool 80 p && Qltb p 90 then Some ("A+", 9.0)
   else if Qle_bool 70 p && Qltb p 80 then Some ("A", 8.0)
   else if Qle_bool 60 p && Qltb p 70 then Some ("B+", 7.0)
   else if Qle_bool 50 p && Qltb p 60 then Some ("B", 6.0)
   else if Qle_bool 45 p && Qltb p 50 then Some ("C", 5.0)
   else if Qle_bool 40 p && Qltb p 45 then Some ("D", 4.0)
   else if Qle_bool 0 p && Qltb p 40 then Some ("F", 0.0)
   else None)%Q.

(** A row's range contains [p]: the test of the lookup loop. *)
Definition row_matches (p : pyfloat) (r : Q * Q * string * Q) : bool :=
  let '(mn, mx, _, _) := r in fle (Fin mn) p && fle p (Fin mx).

(** Percentages written with at most two decimals, the precision of the
    table's upper bounds. *)
Definition two_decimals (p : Q) : Prop := exists n : Z, (p == n # 100)%Q.

(** [p] lies in [[0,100]] *)
Definition in_percent_range (p : pyfloat) : bool := fle (Fin 0) p && fle p (Fin 100).

(** ** Rounding and sums, as statements use them *)

(** [r] is [x] rounded to [ndigits] decimals: a multiple of [10^-ndigits]
    at distance at most half a unit of the last digit. *)
Definition rounded_to (ndigits : nat) (r x : Q) : Prop :=
  (exists k : Z, (r == inject_Z k / inject_Z (pow10 ndigits))%Q) /\
  (Qabs (r - x) * inject_Z (pow10 ndigits) <= 1 # 2)%Q.

Definition Qsum (l : list Q) : Q := fold_right Qplus 0%Q l.
Definition Zsum (l : list Z) : Z := fold_right Z.add 0 l.

(** ** Reading a data frame and a list of semesters *)

Definition is_inf (f : pyfloat) : bool :=
  match f with Inf _ => true | _ => false end.

(** Neither cell of the row reads as an infinity. *)
Definition finite_cells (r : row) : bool :=
  negb (is_inf (to_numeric_coerce (Credits r))) &&
  negb (is_inf (to_numeric_coerce (Grade_Point r))).

(** The subjects that have a grade point, as (points, credits); a
    missing credit counts 0. *)
Definition graded (df : list row) : list (Q * Q) :=
  omap (fun r =>
          match to_numeric_coerce (Grade_Point r), fillna0 (to_numeric_coerce (Credits r)) with
          | Fin p, Fin c => Some (p, c)
          | _, _ => None
          end) df.

(** A semester of the tracker from its number, SGPA and credits. *)
Definition mk_sem_row (t : Z * Q * Z) : sem_row :=
  {| sem := t.1.1; sgpa := Fin t.1.2; credits := t.2 |}.

(** ** The planner as the specification words it *)

(** The inverse lookup and the clamp, as the specification words them:
    the lowest percent of the band with the given grade point, and
    [clamp(x, lo, hi)]. *)
Definition lowerBoundFor (points : Q) : option Q :=
  (if Qeq_bool points 10 then Some 90
   else if Qeq_bool points 9 then Some 80
   else if Qeq_bool points 8 then Some 70
   else if Qeq_bool points 7 then Some 60
   else if Qeq_bool points 6 then Some 50
   else if Qeq_bool points 5 then Some 45
   else if Qeq_bool points 4 then Some 40
   else if Qeq_bool points 0 then Some 0
   else None)%Q.

Definition clamp (x lo hi : Q) : Q :=
  if Qltb x lo then lo else if Qltb hi x then hi else x.

(** ** The holes of the grade table

    The percents of [[0,100]] that lie strictly between the upper bound
    of a row and the lower bound of the next one. *)
Definition in_gap (p : Q) : Prop :=
  (39.99 < p < 40 \/ 44.99 < p < 45 \/ 49.99 < p < 50 \/ 59.99 < p < 60 \/
   69.99 < p < 70 \/ 79.99 < p < 80 \/ 89.99 < p < 90)%Q.

(** ** Inputs of the semester form

    The bounds the form's number inputs enforce. *)
Definition form_subject (s : subject) : Prop :=
  0 <= subject_credits s <= 10 /\
  0 <= Mid1_out_of_40 s <= 40 /\ 0 <= Mid2_out_of_40 s <= 40 /\
  0 <= Presentation_out_of_10 s <= 10 /\ 0 <= SEE_out_of_50 s <= 50.

(** ** Histories the pages write

    Several entries recorded one after the other, and the shape of an
    entry as far as its rating goes: an object whose [rating] is absent,
    null, or an integer from 1 to 5. *)
Fixpoint append_each (entries : list json) : io unit :=
  match entries with
  | [] => mret tt
  | entry :: rest => append_history entry;; append_each rest
  end.

Definition app_entry (e : json) : Prop :=
  exists fields,
    e = JDict fields /\
    (assoc_get "rating" fields = None \/
     assoc_get "rating" fields = Some JNull \/
     exists z, assoc_get "rating" fields = Some (JInt z) /\ 1 <= z <= 5).

(** ** Reading the conversion

    The number a payload holds under a key, when it is a finite one,
    and the fields that hold a figure growing with the CGPA. *)
Definition numeric_field (out : gmap string (gmap string pyval)) (country field : string)
  : option Q :=
  match payload_field out country field with
  | Some (VFloat (Fin q)) => Some q
  | Some (VInt z) => Some (inject_Z z)
  | _ => None
  end.

Definition rising_fields : list (string * string) :=
  [ ("United States", "gpa"); ("Canada", "gpa"); ("Australia", "gpa");
    ("Netherlands", "score"); ("Sweden", "grade"); ("France", "percent");
    ("Singapore", "gpa"); ("New Zealand", "gpa") ].

(** ** Reading a plan

    The difficulty given last for a subject among the rows of the plan. *)
Fixpoint last_difficulty (subj : string) (plan_rows : list (string * string)) : option string :=
  match plan_rows with
  | [] => None
  | r :: rest =>
      match last_difficulty subj rest with
      | Some d => Some d
      | None => if String.eqb r.1 subj then Some r.2 else None
      end
  end.

(** * Properties *)

(** ** Comparisons of finite floats *)

Lemma fle_Fin (a b : Q) : fle (Fin a) (Fin b) = Qle_bool a b.
Proof.
  unfold fle, fcmp, Qle_bool, Qcompare.
  destruct (Z.compare_spec (Qnum a * QDen b) (Qnum b * QDen a)) as [E|E|E];
    symmetry; [apply Z.leb_le | apply Z.leb_le | apply Z.leb_gt]; lia.
Qed.

Lemma flt_Fin (a b : Q) : flt (Fin a) (Fin b) = Qltb a b.
Proof.
  unfold flt, fcmp, Qltb, Qle_bool, Qcompare.
  destruct (Z.compare_spec (Qnum a * QDen b) (Qnum b * QDen a)) as [E|E|E];
    symmetry; [apply negb_false_iff, Z.leb_le | apply negb_true_iff, Z.leb_gt
              | apply negb_false_iff, Z.leb_le]; lia.
Qed.

Lemma Qle_bool_true (a b : Q) : Qle_bool a b = true <-> (a <= b)%Q.
Proof. apply Qle_bool_iff. Qed.

Lemma Qle_bool_false (a b : Q) : Qle_bool a b = false <-> (b < a)%Q.
Proof.
  rewrite <- not_true_iff_false, Qle_bool_iff. split.
  - apply Qnot_le_lt.
  - apply Qlt_not_le.
Qed.

Lemma Qltb_true (a b : Q) : Qltb a b = true <-> (a < b)%Q.
Proof. unfold Qltb. rewrite negb_true_iff. apply Qle_bool_false. Qed.

Lemma Qltb_false (a b : Q) : Qltb a b = false <-> (b <= a)%Q.
Proof. unfold Qltb. rewrite negb_false_iff. apply Qle_bool_true. Qed.

(** Case analysis on one comparison of the goal, dropping the branch
    that the hypotheses on rationals already exclude. *)
Ltac qcase :=
  match goal with
  | |- context [Qle_bool ?a ?b] =>
      let E := fresh "E" in
      destruct (Qle_bool a b) eqn:E;
      [apply Qle_bool_true in E | apply Qle_bool_false in E];
      try (exfalso; lra)
  | |- context [Qltb ?a ?b] =>
      let E := fresh "E" in
      destruct (Qltb a b) eqn:E;
      [apply Qltb_true in E | apply Qltb_false in E];
      try (exfalso; lra)
  end.

Ltac qcases := repeat (qcase; cbn [andb orb negb]).

Lemma grade_scan_Fin (p : Q) :
  grade_scan (Fin p) PERCENT_TO_GRADE =
  (if Qle_bool 90 p && Qle_bool p 100 then ("O", Fin 10.0)
   else if Qle_bool 80 p && Qle_bool p 89.99 then ("A+", Fin 9.0)
   else if Qle_bool 70 p && Qle_bool p 79.99 then ("A", Fin 8.0)
   else if Qle_bool 60 p && Qle_bool p 69.99 then ("B+", Fin 7.0)
   else if Qle_bool 50 p && Qle_bool p 59.99 then ("B", Fin 6.0)
   else if Qle_bool 45 p && Qle_bool p 49.99 then ("C", Fin 5.0)
   else if Qle_bool 40 p && Qle_bool p 44.99 then ("D", Fin 4.0)
   else if Qle_bool 0 p && Qle_bool p 39.99 then ("F", Fin 0.0)
   else ("", NaN))%Q.
Proof. cbn [grade_scan PERCENT_TO_GRADE]. rewrite !fle_Fin. reflexivity. Qed.

Lemma no_overlap (p : pyfloat) :
  (length (List.filter (row_matches p) PERCENT_TO_GRADE) <= 1)%nat.
Proof.
  destruct p as [q|s|].
  - cbn [List.filter PERCENT_TO_GRADE row_matches]. rewrite !fle_Fin.
    qcases; cbn [length]; lia.
  - destruct s; cbn; lia.
  - cbn; lia.
Qed.

Lemma two_decimals_gaps (p : Q) :
  two_decimals p ->
  ((p < 90 -> p <= 89.99) /\ (p < 80 -> p <= 79.99) /\ (p < 70 -> p <= 69.99) /\
   (p < 60 -> p <= 59.99) /\ (p < 50 -> p <= 49.99) /\ (p < 45 -> p <= 44.99) /\
   (p < 40 -> p <= 39.99))%Q.
Proof.
  intros [n Hn].
  repeat split; intros H; rewrite Hn in *; unfold Qlt, Qle in *; cbn in *; lia.
Qed.

(** ** Grade lookup *)

Lemma lookup_on_grid (p : Q) :
  (0 <= p <= 100)%Q ->
  two_decimals p ->
  exists mn mx lbl gp,
    List.filter (row_matches (Fin p)) PERCENT_TO_GRADE = [(mn, mx, lbl, gp)] /\
    percent_to_grade_point (VFloat (Fin p)) = (lbl, Fin gp) /\
    spec_band p = Some (lbl, gp).
Proof.
  intros [H0 H100] Hd.
  destruct (two_decimals_gaps p Hd) as (G90 & G80 & G70 & G60 & G50 & G45 & G40).
  unfold percent_to_grade_point, spec_band. cbn [py_float].
  rewrite grade_scan_Fin.
  cbn [List.filter PERCENT_TO_GRADE row_matches]. rewrite !fle_Fin.
  destruct (Qlt_le_dec p 90) as [L90|L90]; try apply G90 in L90;
  destruct (Qlt_le_dec p 80) as [L80|L80]; try apply G80 in L80; try (exfalso; lra);
  destruct (Qlt_le_dec p 70) as [L70|L70]; try apply G70 in L70; try (exfalso; lra);
  destruct (Qlt_le_dec p 60) as [L60|L60]; try apply G60 in L60; try (exfalso; lra);
  destruct (Qlt_le_dec p 50) as [L50|L50]; try apply G50 in L50; try (exfalso; lra);
  destruct (Qlt_le_dec p 45) as [L45|L45]; try apply G45 in L45; try (exfalso; lra);
  destruct (Qlt_le_dec p 40) as [L40|L40]; try apply G40 in L40; try (exfalso; lra);
  clear G90 G80 G70 G60 G50 G45 G40;
  qcases; do 4 eexists; repeat split; reflexivity.
Qed.

(** The totals the semester page computes from its integer marks are
    multiples of one half in [[0,100]], so each of them gets a band. *)
Lemma subject_total_on_grid (mid1 mid2 pres see : Z) :
  0 <= mid1 <= 40 -> 0 <= mid2 <= 40 -> 0 <= pres <= 10 -> 0 <= see <= 50 ->
  exists q, subject_total mid1 mid2 pres see = Fin q /\
            (0 <= q <= 100)%Q /\ two_decimals q.
Proof.
  intros H1 H2 H3 H4. unfold subject_total. cbn [fadd fdiv].
  change (Qis_zero 2.0) with false. cbn iota.
  assert (B : forall z lo hi : Z, lo <= z <= hi -> (inject_Z lo <= inject_Z z <= inject_Z hi)%Q)
    by (intros z lo hi [Ha Hb]; split; rewrite <- Zle_Qle; assumption).
  apply B in H1 as Q1. apply B in H2 as Q2. apply B in H3 as Q3. apply B in H4 as Q4.
  change (inject_Z 0) with 0%Q in *. change (inject_Z 40) with 40%Q in *.
  change (inject_Z 10) with 10%Q in *. change (inject_Z 50) with 50%Q in *.
  assert (G : forall a b : Z, (inject_Z a / 2.0 + inject_Z b == (50 * a + 100 * b) # 100)%Q).
  { intros a b. rewrite (Qmake_Qdiv (50 * a + 100 * b) 100).
    rewrite inject_Z_plus, !inject_Z_mult. change (inject_Z (Z.pos 100)) with 100%Q.
    change (inject_Z 50) with 50%Q. change (inject_Z 100) with 100%Q. field. }
  assert (A : (0 <= (inject_Z mid1 + inject_Z mid2) / 2.0 <= 40)%Q).
  { assert (E : ((inject_Z mid1 + inject_Z mid2) / 2.0
                 == (inject_Z mid1 + inject_Z mid2) * (1 # 2))%Q) by field.
    rewrite E. lra. }
  unfold fgt. cbn [fadd]. rewrite flt_Fin.
  destruct (Qltb 50.0 ((inject_Z mid1 + inject_Z mid2) / 2.0 + inject_Z pres)) eqn:E1;
    [apply Qltb_true in E1|apply Qltb_false in E1]; cbn [fadd]; rewrite flt_Fin.
  - destruct (Qltb 100.0 (50.0 + inject_Z see)) eqn:E2;
      [apply Qltb_true in E2; exfalso; lra|apply Qltb_false in E2].
    eexists. split; [reflexivity|]. split; [lra|].
    exists (5000 + 100 * see). rewrite (Qmake_Qdiv (5000 + 100 * see) 100).
    rewrite inject_Z_plus, inject_Z_mult. change (inject_Z (Z.pos 100)) with 100%Q.
    change (inject_Z 5000) with 5000%Q. change (inject_Z 100) with 100%Q. field.
  - destruct (Qltb 100.0 ((inject_Z mid1 + inject_Z mid2) / 2.0 + inject_Z pres + inject_Z see)) eqn:E2;
      [apply Qltb_true in E2; exfalso; lra|apply Qltb_false in E2].
    eexists. split; [reflexivity|]. split; [lra|].
    exists (50 * (mid1 + mid2) + 100 * (pres + see)).
    rewrite <- G, inject_Z_plus, (inject_Z_plus pres see). ring.
Qed.

Lemma subject_total_graded (mid1 mid2 pres see : Z) :
  0 <= mid1 <= 40 -> 0 <= mid2 <= 40 -> 0 <= pres <= 10 -> 0 <= see <= 50 ->
  exists q lbl gp,
    subject_total mid1 mid2 pres see = Fin q /\
    percent_to_grade_point (VFloat (Fin q)) = (lbl, Fin gp) /\
    spec_band q = Some (lbl, gp).
Proof.
  intros H1 H2 H3 H4.
  destruct (subject_total_on_grid mid1 mid2 pres see H1 H2 H3 H4) as (q & Hq & Hr & Hd).
  destruct (lookup_on_grid q Hr Hd) as (mn & mx & lbl & gp & _ & Hl & Hs).
  exists q, lbl, gp. auto.
Qed.

(** C1 (as stated) fails: [89.999] lies in [[0,100]], the half-open table
    puts it in band A+, and the lookup finds no row for it. *)
Lemma grade_lookup_gap :
  (0 <= 89.999 <= 100)%Q /\
  spec_band 89.999 = Some ("A+", 9.0%Q) /\
  List.filter (row_matches (Fin 89.999)) PERCENT_TO_GRADE = [] /\
  percent_to_grade_point (VFloat (Fin 89.999)) = ("", NaN).
Proof.
  split; [split; unfold Qle; cbn; lia|].
  split; [reflexivity|]. split; reflexivity.
Qed.

(** C2 (as amended).  An input that [float()] rejects, or whose value
    is outside [[0,100]], is no failure of the call: nothing is raised and
    the call returns the empty label with NaN as grade point; NaN is not
    the grade point 0 (nor any grade point of the table), neither as a
    value nor under Python's [==]. *)
Theorem invalid_percent_no_grade (percent : pyval) :
  raises (py_float percent) \/
  (exists p, py_float percent = Ok p /\ in_percent_range p = false) ->
  percent_to_grade_point_call percent = Ok ("", NaN) /\
  ~ raises (percent_to_grade_point_call percent) /\
  percent_to_grade_point percent = ("", NaN) /\
  (percent_to_grade_point percent).2 <> Fin 0 /\
  feqb (percent_to_grade_point percent).2 (Fin 0) = false /\
  Forall (fun r => (percent_to_grade_point percent).2 <> Fin r.2) PERCENT_TO_GRADE.
Proof.
  intros H.
  assert (E : percent_to_grade_point percent = ("", NaN)).
  { unfold percent_to_grade_point.
    destruct H as [[e ->]|(p & -> & Hp)]; [reflexivity|].
    destruct p as [q|s|].
    - rewrite grade_scan_Fin. unfold in_percent_range in Hp.
      rewrite !fle_Fin in Hp.
      destruct (Qle_bool 0 q) eqn:E0; [apply Qle_bool_true in E0|apply Qle_bool_false in E0];
        [destruct (Qle_bool q 100) eqn:E1; [discriminate|apply Qle_bool_false in E1]|];
        qcases; reflexivity.
    - destruct s; reflexivity.
    - reflexivity. }
  assert (C : percent_to_grade_point_call percent = Ok (percent_to_grade_point percent)).
  { unfold percent_to_grade_point_call, percent_to_grade_point.
    destruct (py_float percent); reflexivity. }
  rewrite C, E. cbn [snd]. split; [reflexivity|].
  split; [intros [e He]; discriminate He|].
  repeat split; try discriminate.
  repeat constructor; discriminate.
Qed.

Lemma invalid_percent_no_grade_witness :
  percent_to_grade_point_call (VStr "absent") = Ok ("", NaN) /\
  percent_to_grade_point_call (VFloat (Fin 100.5)) = Ok ("", NaN) /\
  percent_to_grade_point (VInt (-1)) = ("", NaN).
Proof.
  split; [|split].
  - apply (invalid_percent_no_grade (VStr "absent")). left. exists ValueError. reflexivity.
  - apply (invalid_percent_no_grade (VFloat (Fin 100.5))). right.
    exists (Fin 100.5). split; reflexivity.
  - apply (invalid_percent_no_grade (VInt (-1))). right.
    exists (Fin (inject_Z (-1))). split; reflexivity.
Defined.

(** C2 (as stated) fails: 150 is outside [[0,100]] and the string is one
    that [float()] rejects, yet neither call fails: both return. *)
Lemma invalid_percent_is_no_failure :
  in_percent_range (Fin 150) = false /\
  percent_to_grade_point_call (VFloat (Fin 150)) = Ok ("", NaN) /\
  ~ raises (percent_to_grade_point_call (VFloat (Fin 150))) /\
  py_float (VStr "absent") = Raise ValueError /\
  percent_to_grade_point_call (VStr "absent") = Ok ("", NaN) /\
  ~ raises (percent_to_grade_point_call (VStr "absent")).
Proof.
  split; [reflexivity|]. split; [reflexivity|].
  split; [intros [e He]; discriminate He|].
  split; [reflexivity|]. split; [reflexivity|].
  intros [e He]. discriminate He.
Qed.

(** ** Rounding *)

Lemma round_half_even_near (q : Q) :
  (Qabs (inject_Z (round_half_even q) - q) <= 1 # 2)%Q.
Proof.
  unfold round_half_even.
  pose proof (Qfloor_le q) as Hlo. pose proof (Qlt_floor q) as Hhi.
  rewrite inject_Z_plus in Hhi.
  set (f := Qfloor q) in *. clearbody f.
  apply Qabs_Qle_condition.
  destruct (Qcompare_spec (q - inject_Z f) (1 # 2)) as [E|E|E].
  - destruct (Z.even f); [|rewrite inject_Z_plus]; change (inject_Z 1) with 1%Q in *; lra.
  - change (inject_Z 1) with 1%Q in *. lra.
  - rewrite inject_Z_plus. change (inject_Z 1) with 1%Q in *. lra.
Qed.

Lemma pow10_pos (n : nat) : (0 < inject_Z (pow10 n))%Q.
Proof.
  unfold pow10. change 0%Q with (inject_Z 0). rewrite <- Zlt_Qlt.
  apply Z.pow_pos_nonneg; lia.
Qed.

Lemma Qround_to_rounded (n : nat) (q : Q) : rounded_to n (Qround_to n q) q.
Proof.
  unfold rounded_to, Qround_to.
  pose proof (pow10_pos n) as HP. set (P := inject_Z (pow10 n)) in *.
  set (k := round_half_even (q * P)).
  split; [exists k; apply Qred_correct|].
  rewrite Qred_correct.
  pose proof (round_half_even_near (q * P)) as Hk. fold k in Hk.
  assert (E : ((inject_Z k / P - q) * P == inject_Z k - q * P)%Q) by (field; lra).
  rewrite <- (Qabs_pos P) at 2 by lra.
  rewrite <- Qabs_Qmult, E. exact Hk.
Qed.

Lemma rounded_to_compat (n : nat) (r x y : Q) :
  (x == y)%Q -> rounded_to n r x -> rounded_to n r y.
Proof. intros E [Hk Hd]. split; [exact Hk|]. rewrite <- E. exact Hd. Qed.

(** ** Sums *)

Lemma fold_left_fadd_Fin (qs : list Q) (a : Q) :
  exists t, fold_left fadd (map Fin qs) (Fin a) = Fin t /\ (t == a + Qsum qs)%Q.
Proof.
  revert a. induction qs as [|q qs IH]; intros a; cbn [map fold_left Qsum fold_right].
  - exists a. split; [reflexivity|ring].
  - cbn [fadd]. destruct (IH (a + q)%Q) as (t & Ht & Et).
    exists t. split; [exact Ht|]. rewrite Et. unfold Qsum. ring.
Qed.

Lemma filter_notna_Fin (qs : list Q) : List.filter notna (map Fin qs) = map Fin qs.
Proof. induction qs as [|q qs IH]; [reflexivity|]. cbn. now rewrite IH. Qed.

Lemma series_sum_Fin (qs : list Q) :
  exists t, series_sum (map Fin qs) = Fin t /\ (t == Qsum qs)%Q.
Proof.
  unfold series_sum. rewrite filter_notna_Fin.
  destruct (fold_left_fadd_Fin qs 0) as (t & Ht & Et).
  exists t. split; [exact Ht|]. rewrite Et. ring.
Qed.

Lemma sum_Z_Zsum (l : list Z) : sum_Z l = Zsum l.
Proof.
  unfold sum_Z. enough (H : forall a, fold_left Z.add l a = a + Zsum l) by apply H.
  induction l as [|z l IH]; intros a; cbn [fold_left Zsum fold_right]; [lia|].
  rewrite IH. unfold Zsum. lia.
Qed.

Lemma Qsum_inject_Z (l : list Z) : (Qsum (map inject_Z l) == inject_Z (Zsum l))%Q.
Proof.
  induction l as [|z l IH]; cbn [map Qsum Zsum fold_right]; [reflexivity|].
  fold (Qsum (map inject_Z l)). fold (Zsum l). rewrite IH, inject_Z_plus. reflexivity.
Qed.

Lemma feqb_Fin_zero (t : Q) : feqb (Fin t) (Fin 0) = true <-> (t == 0)%Q.
Proof.
  unfold feqb, fcmp. destruct (Qcompare_spec t 0) as [E|E|E]; split; intros H;
    try discriminate; try reflexivity; try exact E; exfalso; lra.
Qed.

Lemma Qis_zero_false (t : Q) : ~ (t == 0)%Q -> Qis_zero t = false.
Proof.
  intros H. unfold Qis_zero. destruct (Qcompare_spec t 0) as [E|E|E];
    [contradiction|reflexivity|reflexivity].
Qed.

(** Weighted average of finite values, with a non-zero total weight. *)
Lemma weighted_div_rounded (ws : list Q) (d : Q) (n : nat) :
  ~ (d == 0)%Q ->
  exists r,
    py_round (fdiv (series_sum (map Fin ws)) (Fin d)) n = Fin r /\
    rounded_to n r (Qsum ws / d).
Proof.
  intros Hnz.
  destruct (series_sum_Fin ws) as (w & -> & Ew).
  cbn [fdiv]. rewrite Qis_zero_false by exact Hnz.
  cbn [py_round]. eexists. split; [reflexivity|].
  apply (rounded_to_compat n _ (w / d)); [|apply Qround_to_rounded].
  rewrite Ew. reflexivity.
Qed.

(** ** Semester average *)

Lemma used_graded (df : list row) :
  Forall (fun r => finite_cells r = true) df ->
  List.filter (fun r : pyfloat * pyfloat => notna r.2)
    (map (fun r => (fillna0 (to_numeric_coerce (Credits r)),
                    to_numeric_coerce (Grade_Point r))) df)
  = map (fun pc : Q * Q => (Fin pc.2, Fin pc.1)) (graded df).
Proof.
  induction 1 as [|r df Hr _ IH]; [reflexivity|].
  unfold graded in *. cbn [map List.filter omap list_omap].
  unfold finite_cells in Hr.
  destruct (to_numeric_coerce (Grade_Point r)) as [p| |];
    destruct (to_numeric_coerce (Credits r)) as [c| |];
    try discriminate; cbn [snd fillna0 notna]; rewrite IH; reflexivity.
Qed.

(** C3.  On a data frame without infinite cells, let the subjects be the
    rows whose grade point is not missing.  If their credits sum to 0,
    [sgpa_from_df] returns [None], not a number; otherwise it returns the
    credit-weighted mean of their grade points, rounded to 3 decimals. *)
Theorem sgpa_from_df_weighted_mean (df : list row) :
  Forall (fun r => finite_cells r = true) df ->
  let subjects := graded df in
  let total := Qsum (map snd subjects) in
  let weighted := Qsum (map (fun pc => pc.1 * pc.2)%Q subjects) in
  ((total == 0)%Q -> sgpa_from_df df = None) /\
  (~ (total == 0)%Q ->
   exists r, sgpa_from_df df = Some (Fin r) /\
             rounded_to GPA_DECIMALS r (weighted / total)).
Proof.
  intros Hfin subjects total weighted.
  unfold sgpa_from_df. rewrite (used_graded df Hfin). fold subjects.
  rewrite !map_map. cbn [fst snd fmul].
  change (map (fun x : Q * Q => Fin x.2) subjects) with (map (fun x : Q * Q => Fin (snd x)) subjects).
  rewrite <- (map_map snd Fin subjects).
  rewrite <- (map_map (fun pc : Q * Q => (pc.1 * pc.2)%Q) Fin subjects).
  fold total.
  destruct (series_sum_Fin (map snd subjects)) as (t & Ht & Et). fold total in Et.
  rewrite Ht. split.
  - intros Hz. rewrite (proj2 (feqb_Fin_zero t)) by (rewrite Et; exact Hz). reflexivity.
  - intros Hnz.
    assert (Hf : feqb (Fin t) (Fin 0) = false).
    { apply not_true_iff_false. rewrite feqb_Fin_zero, Et. exact Hnz. }
    rewrite Hf.
    destruct (weighted_div_rounded (map (fun pc : Q * Q => (pc.1 * pc.2)%Q) subjects) t GPA_DECIMALS)
      as (r & Hr & Hround); [rewrite Et; exact Hnz|].
    exists r. rewrite Hr. split; [reflexivity|].
    apply (rounded_to_compat _ _ _ _ (Qdiv_comp _ _ (Qeq_refl _) _ _ Et)).
    exact Hround.
Qed.

(** Three subjects, one without a grade point: the mean is over the two
    others, (9*3 + 8*2) / (3 + 2) = 8.6; and a semester whose graded
    subjects carry no credit has no average. *)
Lemma sgpa_from_df_weighted_mean_witness :
  sgpa_from_df [ {| Credits := VInt 0; Grade_Point := VFloat (Fin 9.0) |};
                 {| Credits := VInt 4; Grade_Point := VFloat NaN |} ] = None /\
  exists r,
    sgpa_from_df [ {| Credits := VInt 3; Grade_Point := VFloat (Fin 9.0) |};
                   {| Credits := VInt 4; Grade_Point := VNone |};
                   {| Credits := VStr "2"; Grade_Point := VFloat (Fin 8.0) |} ] = Some (Fin r) /\
    rounded_to 3 r ((9.0 * 3 + (8.0 * 2 + 0)) / (3 + (2 + 0))).
Proof.
  split.
  - apply (sgpa_from_df_weighted_mean
             [ {| Credits := VInt 0; Grade_Point := VFloat (Fin 9.0) |};
               {| Credits := VInt 4; Grade_Point := VFloat NaN |} ]).
    + repeat constructor.
    + vm_compute. reflexivity.
  - apply (sgpa_from_df_weighted_mean
             [ {| Credits := VInt 3; Grade_Point := VFloat (Fin 9.0) |};
               {| Credits := VInt 4; Grade_Point := VNone |};
               {| Credits := VStr "2"; Grade_Point := VFloat (Fin 8.0) |} ]).
    + repeat constructor.
    + vm_compute. discriminate.
Defined.

(** ** Cumulative average *)

Lemma df_valid_kept (pairs : list (Z * Q * Z)) :
  List.filter (fun r => fgt (sgpa r) (Fin 0)) (map mk_sem_row pairs)
  = map mk_sem_row (List.filter (fun t => negb (Qle_bool t.1.2 0)) pairs).
Proof.
  induction pairs as [|t pairs IH]; [reflexivity|].
  cbn [map List.filter]. unfold fgt at 1. cbn [mk_sem_row sgpa].
  rewrite flt_Fin. unfold Qltb.
  destruct (Qle_bool t.1.2 0); cbn [negb map]; rewrite IH; reflexivity.
Qed.

(** C4.  The semesters with [sgpa <= 0] are left out; on the others, the
    block reports the error exactly when the credits sum to zero, and
    otherwise the credit-weighted mean rounded to 3 decimals.  The pairs
    (8.0, 20), (0, 0), (9.0, 24) give 8.545. *)
Theorem compute_cgpa_weighted_mean :
  (forall pairs : list (Z * Q * Z),
     let kept := List.filter (fun t => negb (Qle_bool t.1.2 0)) pairs in
     let total := Zsum (map snd kept) in
     let weighted := Qsum (map (fun t => t.1.2 * inject_Z t.2)%Q kept) in
     (total = 0 ->
      compute_cgpa (map mk_sem_row pairs)
      = StError "No credits entered. CGPA requires credit-weighted average.") /\
     (total <> 0 ->
      exists r, compute_cgpa (map mk_sem_row pairs) = StSuccess (Fin r) /\
                rounded_to 3 r (weighted / inject_Z total))) /\
  List.filter (fun t => negb (Qle_bool t.1.2 0)) [(1, 8.0%Q, 20); (2, 0%Q, 0); (3, 9.0%Q, 24)]
  = [(1, 8.0%Q, 20); (3, 9.0%Q, 24)] /\
  exists r, compute_cgpa (map mk_sem_row [(1, 8.0%Q, 20); (2, 0%Q, 0); (3, 9.0%Q, 24)])
            = StSuccess (Fin r) /\ (r == 8.545)%Q.
Proof.
  split; [|split; [reflexivity|eexists; split; [vm_compute; reflexivity|reflexivity]]].
  intros pairs kept total weighted.
  unfold compute_cgpa. rewrite df_valid_kept. fold kept.
  rewrite !map_map. cbn [mk_sem_row sgpa credits fmul].
  rewrite sum_Z_Zsum.
  change (Zsum (map (fun x : Z * Q * Z => x.2) kept)) with total.
  rewrite <- (map_map (fun t : Z * Q * Z => (t.1.2 * inject_Z t.2)%Q) Fin kept).
  split.
  - intros ->. reflexivity.
  - intros Hnz. rewrite (proj2 (Z.eqb_neq total 0) Hnz).
    destruct (weighted_div_rounded (map (fun t : Z * Q * Z => (t.1.2 * inject_Z t.2)%Q) kept)
                (inject_Z total) GPA_DECIMALS) as (r & Hr & Hround).
    + change 0%Q with (inject_Z 0). rewrite inject_Z_injective. exact Hnz.
    + exists r. rewrite Hr. split; [reflexivity|exact Hround].
Qed.

(** ** Country conversion *)

(** Whatever [float()] reads is converted: the ten countries, with the
    step values and rounded scales of the source. *)
Lemma convert_numeric (cgpa10 : pyval) (cg : pyfloat) :
  py_float cgpa10 = Ok cg ->
  exists out,
    convert_cgpa_to_countries cgpa10 = Ok out /\
    dom out = list_to_set TOP_COUNTRIES /\
    payload_field out "United States" "gpa"
      = Some (VFloat (py_round (fmul (fdiv cg (Fin 10.0)) (Fin 4.0)) 2)) /\
    payload_field out "Singapore" "gpa"
      = Some (VFloat (py_round (fmul (fdiv cg (Fin 10.0)) (Fin 4.0)) 2)) /\
    payload_field out "Australia" "gpa" = Some (VInt (australia_gpa (fmul cg (Fin 10)))) /\
    payload_field out "New Zealand" "gpa" = Some (VInt (australia_gpa (fmul cg (Fin 10)))) /\
    payload_field out "Netherlands" "score"
      = Some (VFloat (py_round (fdiv (fmul cg (Fin 10)) (Fin 10)) 2)) /\
    payload_field out "France" "percent" = Some (VFloat (fmul cg (Fin 10))).
Proof.
  intros H. unfold convert_cgpa_to_countries.
  destruct cgpa10; [discriminate H| | | |]; rewrite H; cbn [rbind];
    (eexists; split; [reflexivity|]; split;
     [ rewrite !dom_insert_L, dom_empty_L; unfold TOP_COUNTRIES; cbn [list_to_set]; set_solver
     | unfold payload_field; repeat split; by simplify_map_eq ]).
Qed.

Lemma top_countries_nodup : NoDup TOP_COUNTRIES.
Proof. apply (bool_decide_unpack _). vm_compute. exact I. Qed.

(** C5 (as amended).  The conversion checks no range.  [None] gives the
    empty mapping; an input that [float()] rejects raises [float()]'s own
    exception; every other input, inside [[0,10]] or not, gives the
    ten-country mapping computed from the value as it is: the US and
    Singapore figure is the value times 4/10 rounded to 2 decimals, the
    French one the value times 10. *)
Theorem convert_checks_no_range (cgpa10 : pyval) :
  (cgpa10 = VNone -> convert_cgpa_to_countries cgpa10 = Ok ∅) /\
  (cgpa10 <> VNone ->
   forall e, py_float cgpa10 = Raise e -> convert_cgpa_to_countries cgpa10 = Raise e) /\
  (forall cg, py_float cgpa10 = Ok cg ->
     exists out,
       convert_cgpa_to_countries cgpa10 = Ok out /\
       dom out = list_to_set TOP_COUNTRIES /\
       payload_field out "France" "percent" = Some (VFloat (fmul cg (Fin 10)))) /\
  (forall q, py_float cgpa10 = Ok (Fin q) ->
     exists out r,
       convert_cgpa_to_countries cgpa10 = Ok out /\
       payload_field out "United States" "gpa" = Some (VFloat (Fin r)) /\
       rounded_to 2 r (q * 4 / 10)).
Proof.
  split; [intros ->; reflexivity|]. split; [|split].
  - intros Hn e He. unfold convert_cgpa_to_countries.
    destruct cgpa10; [contradiction| | | |]; rewrite He; reflexivity.
  - intros cg H. destruct (convert_numeric cgpa10 cg H) as (out & Ho & Hd & _ & _ & _ & _ & _ & Hf).
    exists out. auto.
  - intros q H. destruct (convert_numeric cgpa10 (Fin q) H) as (out & Ho & _ & Hus & _).
    exists out. eexists. split; [exact Ho|]. split; [exact Hus|].
    apply (rounded_to_compat 2 _ (q / 10.0 * 4.0)); [field|apply Qround_to_rounded].
Qed.

(** C5 (as stated) fails: 11 is outside [[0,10]], yet the conversion
    returns a mapping, whose US figure is 4.4. *)
Lemma convert_accepts_eleven :
  ~ (0 <= 11 <= 10)%Q /\
  exists out,
    convert_cgpa_to_countries (VFloat (Fin 11)) = Ok out /\
    ~ raises (convert_cgpa_to_countries (VFloat (Fin 11))) /\
    payload_field out "United States" "gpa" = Some (VFloat (Fin (22 # 5))) /\
    payload_field out "France" "percent" = Some (VFloat (Fin (110 # 1))).
Proof.
  split; [intros [_ H]; revert H; unfold Qle; cbn; lia|].
  eexists. split; [reflexivity|]. split; [intros [e He]; discriminate He|].
  split; reflexivity.
Qed.

(** C6.  For a value in [[0,10]] the mapping has exactly the ten
    supported countries as keys, each with one (non-empty) payload. *)
Theorem convert_all_countries (cgpa10 : pyval) (q : Q) :
  py_float cgpa10 = Ok (Fin q) ->
  (0 <= q <= 10)%Q ->
  exists out,
    convert_cgpa_to_countries cgpa10 = Ok out /\
    dom out = list_to_set TOP_COUNTRIES /\
    NoDup TOP_COUNTRIES /\
    length TOP_COUNTRIES = 10%nat /\
    size out = 10%nat /\
    Forall (fun c => exists payload, out !! c = Some payload /\ payload <> ∅) TOP_COUNTRIES.
Proof.
  intros H _. unfold convert_cgpa_to_countries.
  destruct cgpa10; [discriminate H| | | |]; rewrite H; cbn [rbind];
    (eexists; split; [reflexivity|]);
    (assert (Hd : forall m : gmap string (gmap string pyval),
               dom m = list_to_set TOP_COUNTRIES -> size m = 10%nat)
       by (intros m Hm; rewrite <- size_dom, Hm,
             (size_list_to_set (C := gset string) _ top_countries_nodup); reflexivity));
    (split; [rewrite !dom_insert_L, dom_empty_L; unfold TOP_COUNTRIES;
              cbn [list_to_set]; set_solver|]);
    (split; [apply top_countries_nodup|]); (split; [reflexivity|]);
    (split; [apply Hd; rewrite !dom_insert_L, dom_empty_L; unfold TOP_COUNTRIES;
              cbn [list_to_set]; set_solver|]);
    unfold TOP_COUNTRIES; repeat constructor;
    (eexists; split; [by simplify_map_eq|]);
    (intros Hempty; apply (f_equal (fun m : gmap string pyval => dom m)) in Hempty;
     revert Hempty; rewrite ?dom_insert_L, ?dom_singleton_L, dom_empty_L; set_solver).
Qed.

Lemma convert_all_countries_witness :
  exists out,
    convert_cgpa_to_countries (VFloat (Fin 8.5)) = Ok out /\
    dom out = list_to_set TOP_COUNTRIES /\
    NoDup TOP_COUNTRIES /\
    length TOP_COUNTRIES = 10%nat /\
    size out = 10%nat /\
    Forall (fun c => exists payload, out !! c = Some payload /\ payload <> ∅) TOP_COUNTRIES.
Proof.
  apply (convert_all_countries (VFloat (Fin 8.5)) 8.5).
  - reflexivity.
  - split; unfold Qle; cbn; lia.
Defined.

(** C10.  In every mapping the conversion returns, New Zealand's [gpa]
    is Australia's and Singapore's [gpa] is that of the United States;
    unless the input is [None] (the empty mapping), these are the 7-point
    step value and the rounded 4-point value. *)
Theorem convert_shared_payloads (cgpa10 : pyval) (out : gmap string (gmap string pyval)) :
  convert_cgpa_to_countries cgpa10 = Ok out ->
  payload_field out "New Zealand" "gpa" = payload_field out "Australia" "gpa" /\
  payload_field out "Singapore" "gpa" = payload_field out "United States" "gpa" /\
  (cgpa10 <> VNone ->
   exists cg,
     py_float cgpa10 = Ok cg /\
     payload_field out "Australia" "gpa" = Some (VInt (australia_gpa (fmul cg (Fin 10)))) /\
     payload_field out "United States" "gpa"
       = Some (VFloat (py_round (fmul (fdiv cg (Fin 10.0)) (Fin 4.0)) 2))).
Proof.
  intros H.
  destruct (py_float cgpa10) as [cg|e] eqn:Hf.
  - destruct (convert_numeric cgpa10 cg Hf) as (out' & Ho & _ & Hus & Hsg & Hau & Hnz & _).
    rewrite Ho in H. injection H as ->.
    rewrite Hnz, Hau, Hsg, Hus. split; [reflexivity|]. split; [reflexivity|].
    intros _. exists cg. auto.
  - unfold convert_cgpa_to_countries in H.
    destruct cgpa10; [|rewrite Hf in H; discriminate H..].
    injection H as <-. split; [reflexivity|]. split; [reflexivity|].
    intros F. contradiction.
Qed.

Lemma convert_shared_payloads_witness :
  exists out,
    convert_cgpa_to_countries (VFloat (Fin 8.0)) = Ok out /\
    payload_field out "Australia" "gpa" = Some (VInt 6) /\
    payload_field out "New Zealand" "gpa" = payload_field out "Australia" "gpa" /\
    payload_field out "Singapore" "gpa" = payload_field out "United States" "gpa".
Proof.
  eexists. split; [reflexivity|]. split; [reflexivity|].
  refine (let H := convert_shared_payloads (VFloat (Fin 8.0)) _ eq_refl in
          conj (proj1 H) (proj1 (proj2 H))).
Defined.

(** ** Target planner *)

Lemma find_lower_compat (t t' : Q) (table : list (Q * Q * string * Q)) :
  (t == t')%Q -> find_lower (Fin t) table = find_lower (Fin t') table.
Proof.
  intros E. induction table as [|[[[mn mx] lbl] gp] table IH]; [reflexivity|].
  cbn [find_lower fsub fneg fadd fabs]. rewrite !flt_Fin, IH.
  replace (Qltb (Qabs (gp + - t)) 1e-6) with (Qltb (Qabs (gp + - t')) 1e-6); [reflexivity|].
  unfold Qltb. f_equal. apply Qleb_comp; [reflexivity|]. rewrite E. reflexivity.
Qed.

Lemma lowerBoundFor_find_lower (target lb : Q) :
  lowerBoundFor target = Some lb ->
  find_lower (Fin target) PERCENT_TO_GRADE = Some lb.
Proof.
  unfold lowerBoundFor.
  repeat match goal with
         | |- context [Qeq_bool target ?c] =>
             let E := fresh "E" in
             destruct (Qeq_bool target c) eqn:E;
             [apply Qeq_bool_iff in E; intros [= <-];
              rewrite (find_lower_compat _ _ _ E); reflexivity|]
         end.
  discriminate.
Qed.

(** C7.  For a partial score in [[0,50]] and a target that is the grade
    point of a band, the planner asks for
    [clamp(lowerBound(target) - score, 0, 50)]. *)
Theorem planner_needed_is_clamp (cie target lb : Q) :
  (0 <= cie <= 50)%Q ->
  lowerBoundFor target = Some lb ->
  exists r,
    planner_needed (Fin cie) (Fin target) = StSuccess (Fin r) /\
    (r == clamp (lb - cie) 0 50)%Q.
Proof.
  intros _ Hlb. unfold planner_needed.
  rewrite (lowerBoundFor_find_lower _ _ Hlb).
  cbn [fsub fneg fadd]. unfold py_min, py_max, fgt. rewrite flt_Fin.
  unfold clamp, Qminus.
  destruct (Qltb (lb + - cie) 50.0) eqn:E1; rewrite flt_Fin;
    [apply Qltb_true in E1|apply Qltb_false in E1];
    qcases; eexists; (split; [reflexivity|]); lra.
Qed.

Lemma planner_needed_is_clamp_witness :
  planner_needed (Fin 20) (Fin 8.0) = StSuccess (Fin 50.0) /\
  planner_needed (Fin 45) (Fin 5.0) = StSuccess (Fin 0.0) /\
  (clamp (70 - 20) 0 50 == 50)%Q /\
  (clamp (45 - 45) 0 50 == 0)%Q /\
  (exists r, planner_needed (Fin 20) (Fin 8.0) = StSuccess (Fin r) /\
             (r == clamp (70 - 20) 0 50)%Q) /\
  (exists r, planner_needed (Fin 45) (Fin 5.0) = StSuccess (Fin r) /\
             (r == clamp (45 - 45) 0 50)%Q).
Proof.
  do 4 (split; [reflexivity|]). split.
  - apply (planner_needed_is_clamp 20 8.0 70); [split; unfold Qle; cbn; lia|reflexivity].
  - apply (planner_needed_is_clamp 45 5.0 45); [split; unfold Qle; cbn; lia|reflexivity].
Defined.

(** ** The history file *)

Lemma load_history_total (fs : gmap string file) :
  exists v, load_history fs = (Ok v, fs).
Proof.
  unfold load_history, io_try, read_json.
  destruct (fs !! HISTORY_FILE) as [[|v]|]; eauto.
Qed.

(** C8 (as amended).  When the stored text is missing or is not JSON,
    [load_history] does not raise: it returns the empty list and leaves
    the folder as it is.  It raises in no state at all. *)
Theorem load_history_recovers (fs : gmap string file) :
  (raises (read_json HISTORY_FILE fs).1 -> load_history fs = (Ok (JList []), fs)) /\
  ~ raises (load_history fs).1.
Proof.
  split.
  - unfold load_history, io_try, read_json.
    destruct (fs !! HISTORY_FILE) as [[|v]|]; intros [e He]; [reflexivity|discriminate He|reflexivity].
  - destruct (load_history_total fs) as [v ->]. intros [e He]. discriminate He.
Qed.

Lemma load_history_recovers_witness :
  load_history (∅ : gmap string file) = (Ok (JList []), ∅) /\
  load_history {[ "history.json" := NotJson ]} = (Ok (JList []), {[ "history.json" := NotJson ]}).
Proof.
  split.
  - apply (load_history_recovers ∅). exists FileNotFoundError. reflexivity.
  - apply (load_history_recovers {[ "history.json" := NotJson ]}).
    exists JSONDecodeError. reflexivity.
Defined.

(** C8 (as stated) fails: on a history file that is not JSON the read
    raises inside [load_history], which answers with the empty list. *)
Lemma load_history_malformed :
  (read_json HISTORY_FILE {[ HISTORY_FILE := NotJson ]}).1 = Raise JSONDecodeError /\
  load_history {[ HISTORY_FILE := NotJson ]} = (Ok (JList []), {[ HISTORY_FILE := NotJson ]}).
Proof. split; reflexivity. Qed.

(** Once the application has written the history, it reads as a list:
    both writers leave a list behind, and so does the start-up code, which
    writes an empty list when the file is missing. *)
Lemma append_history_leaves_list (fs fs' : gmap string file) (entry : json) :
  append_history entry fs = (Ok tt, fs') ->
  exists h, load_history fs' = (Ok (JList h), fs').
Proof.
  unfold append_history, mbind, io_mbind, io_bind.
  destruct (load_history_total fs) as [v ->].
  destruct v; cbn; intros [= <-];
    eexists; unfold load_history, io_try, read_json; by rewrite lookup_insert_eq.
Qed.

Lemma reset_history_leaves_list (unlink_fails : string -> bool) (fs : gmap string file) :
  exists fs', reset_history unlink_fails fs = (Ok tt, fs') /\
              load_history fs' = (Ok (JList []), fs').
Proof.
  eexists. split; [reflexivity|].
  unfold load_history, io_try, read_json. by rewrite lookup_insert_eq.
Qed.

(** A stored value that is JSON but not a list has no [append]: the
    method call raises and nothing is written. *)
Lemma append_history_not_a_list :
  append_history (JStr "entry") {[ HISTORY_FILE := Json (JDict []) ]}
  = (Raise AttributeError, {[ HISTORY_FILE := Json (JDict []) ]}).
Proof. reflexivity. Qed.

(** C9.  In a state whose history reads as a list: appending an entry
    and reading gives the former entries, in order, then the new one;
    reading twice gives the same list twice and changes nothing; after a
    reset, whichever unlinks fail, reading gives the empty list. *)
Theorem history_append_read_reset (fs : gmap string file) (h : list json) (entry : json) :
  (load_history fs).1 = Ok (JList h) ->
  (exists fs',
      append_history entry fs = (Ok tt, fs') /\
      load_history fs' = (Ok (JList (h ++ [entry])), fs')) /\
  (v1 ← load_history; v2 ← load_history; mret (v1, v2)) fs = (Ok (JList h, JList h), fs) /\
  (forall unlink_fails,
      exists fs',
        reset_history unlink_fails fs = (Ok tt, fs') /\
        load_history fs' = (Ok (JList []), fs')).
Proof.
  intros H. destruct (load_history_total fs) as [v Hv].
  rewrite Hv in H. cbn in H. injection H as ->.
  assert (Hread : forall (m : gmap string file) (x : json),
             load_history (<[HISTORY_FILE := Json x]> m)
             = (Ok x, <[HISTORY_FILE := Json x]> m)).
  { intros m x. unfold load_history, io_try, read_json. by rewrite lookup_insert_eq. }
  split; [|split].
  - eexists. split; [|apply Hread].
    unfold append_history, mbind, io_mbind, io_bind. rewrite Hv. reflexivity.
  - unfold mbind, io_mbind, io_bind, mret, io_mret, io_ret. rewrite !Hv. reflexivity.
  - intros uf. eexists. split; [reflexivity|]. apply Hread.
Qed.

Lemma history_append_read_reset_witness :
  (exists fs',
      append_history (JStr "third") {[ HISTORY_FILE := Json (JList [JStr "first"; JStr "second"]) ]}
      = (Ok tt, fs') /\
      load_history fs' = (Ok (JList [JStr "first"; JStr "second"; JStr "third"]), fs')) /\
  (exists fs',
      append_history (JStr "first") (∅ : gmap string file) = (Ok tt, fs') /\
      load_history fs' = (Ok (JList [JStr "first"]), fs')).
Proof.
  split.
  - apply (history_append_read_reset
             {[ HISTORY_FILE := Json (JList [JStr "first"; JStr "second"]) ]}
             [JStr "first"; JStr "second"] (JStr "third")).
    reflexivity.
  - apply (history_append_read_reset ∅ [] (JStr "first")). reflexivity.
Defined.

(** * Further properties *)

(** ** Rounding: compatibility, monotonicity, fixed points *)

Lemma round_half_even_compat (q q' : Q) :
  (q == q')%Q -> round_half_even q = round_half_even q'.
Proof.
  intros E. unfold round_half_even.
  assert (F : Qfloor q = Qfloor q') by (apply Qfloor_comp; exact E).
  rewrite F.
  assert (C : (q - inject_Z (Qfloor q') ?= 1 # 2)%Q = (q' - inject_Z (Qfloor q') ?= 1 # 2)%Q)
    by (apply Qcompare_comp; [rewrite E|]; reflexivity).
  rewrite C. reflexivity.
Qed.

Lemma round_half_even_inject (z : Z) : round_half_even (inject_Z z) = z.
Proof.
  unfold round_half_even. rewrite Qfloor_Z.
  destruct (Qcompare_spec (inject_Z z - inject_Z z) (1 # 2)) as [E|E|E];
    [exfalso; lra|reflexivity|exfalso; lra].
Qed.

Lemma round_half_even_mono (a b : Q) :
  (a <= b)%Q -> round_half_even a <= round_half_even b.
Proof.
  intros H. pose proof (Qfloor_resp_le _ _ H) as Hf.
  pose proof (Qfloor_le a) as La. pose proof (Qlt_floor a) as Ua.
  pose proof (Qfloor_le b) as Lb. pose proof (Qlt_floor b) as Ub.
  rewrite inject_Z_plus in Ua, Ub. change (inject_Z 1) with 1%Q in *.
  unfold round_half_even.
  destruct (Z.eq_dec (Qfloor a) (Qfloor b)) as [E|N].
  - rewrite E in *. set (f := Qfloor b) in *. clearbody f.
    destruct (Qcompare_spec (a - inject_Z f) (1 # 2)) as [Ca|Ca|Ca];
      destruct (Qcompare_spec (b - inject_Z f) (1 # 2)) as [Cb|Cb|Cb];
      try (exfalso; lra); destruct (Z.even f); lia.
  - assert (Hlt : Qfloor a + 1 <= Qfloor b) by lia.
    destruct (Qcompare_spec (a - inject_Z (Qfloor a)) (1 # 2)) as [Ca|Ca|Ca];
      destruct (Qcompare_spec (b - inject_Z (Qfloor b)) (1 # 2)) as [Cb|Cb|Cb];
      destruct (Z.even (Qfloor a)); destruct (Z.even (Qfloor b)); lia.
Qed.

Lemma Qround_to_compat (n : nat) (q q' : Q) :
  (q == q')%Q -> Qround_to n q = Qround_to n q'.
Proof.
  intros E. unfold Qround_to.
  rewrite (round_half_even_compat (q * inject_Z (pow10 n)) (q' * inject_Z (pow10 n)))
    by (rewrite E; reflexivity).
  reflexivity.
Qed.

Lemma Qround_to_mono (n : nat) (a b : Q) :
  (a <= b)%Q -> (Qround_to n a <= Qround_to n b)%Q.
Proof.
  intros H. unfold Qround_to. rewrite !Qred_correct.
  pose proof (pow10_pos n) as HP. set (P := inject_Z (pow10 n)) in *.
  apply Qmult_le_compat_r; [|apply Qlt_le_weak, Qinv_lt_0_compat; exact HP].
  rewrite <- Zle_Qle. apply round_half_even_mono.
  apply Qmult_le_compat_r; [exact H|lra].
Qed.

(** A multiple of [10^-n] rounds to itself. *)
Lemma Qround_to_fix (n : nat) (k : Z) (x : Q) :
  (x == inject_Z k / inject_Z (pow10 n))%Q -> (Qround_to n x == x)%Q.
Proof.
  intros E. unfold Qround_to. rewrite Qred_correct.
  pose proof (pow10_pos n) as HP. set (P := inject_Z (pow10 n)) in *.
  rewrite (round_half_even_compat (x * P) (inject_Z k)).
  - rewrite round_half_even_inject. symmetry. exact E.
  - rewrite E. field. lra.
Qed.

Lemma Qround_to_between (n : nat) (kl kh : Z) (lo hi x : Q) :
  (lo == inject_Z kl / inject_Z (pow10 n))%Q ->
  (hi == inject_Z kh / inject_Z (pow10 n))%Q ->
  (lo <= x <= hi)%Q -> (lo <= Qround_to n x <= hi)%Q.
Proof.
  intros El Eh [Hl Hh]. split.
  - rewrite <- (Qround_to_fix n kl lo El). apply Qround_to_mono. exact Hl.
  - rewrite <- (Qround_to_fix n kh hi Eh). apply Qround_to_mono. exact Hh.
Qed.

(** ** Weighted means *)

Lemma weighted_sum_bounds (l : list (Q * Q)) (lo hi : Q) :
  Forall (fun pc : Q * Q => (lo <= pc.1 <= hi)%Q /\ (0 <= pc.2)%Q) l ->
  (lo * Qsum (map snd l) <= Qsum (map (fun pc : Q * Q => pc.1 * pc.2) l)
   <= hi * Qsum (map snd l))%Q.
Proof.
  induction 1 as [|[p c] l [[Hl Hh] Hc] _ IH]; cbn [map Qsum fold_right fst snd].
  - lra.
  - fold (Qsum (map snd l)). fold (Qsum (map (fun pc : Q * Q => (pc.1 * pc.2)%Q) l)).
    cbn [fst snd] in *.
    assert (A : (lo * c <= p * c)%Q) by (apply Qmult_le_compat_r; assumption).
    assert (B : (p * c <= hi * c)%Q) by (apply Qmult_le_compat_r; assumption).
    destruct IH as [IHl IHh]. split.
    + rewrite Qmult_plus_distr_r. lra.
    + rewrite Qmult_plus_distr_r. lra.
Qed.

Lemma weighted_mean_bounds (l : list (Q * Q)) (lo hi : Q) :
  Forall (fun pc : Q * Q => (lo <= pc.1 <= hi)%Q /\ (0 <= pc.2)%Q) l ->
  (0 < Qsum (map snd l))%Q ->
  (lo <= Qsum (map (fun pc : Q * Q => pc.1 * pc.2) l) / Qsum (map snd l) <= hi)%Q.
Proof.
  intros H Hpos. destruct (weighted_sum_bounds l lo hi H) as [A B]. split.
  - apply Qle_shift_div_l; assumption.
  - apply Qle_shift_div_r; assumption.
Qed.

Lemma Qsum_nonneg (l : list Q) : Forall (fun c => (0 <= c)%Q) l -> (0 <= Qsum l)%Q.
Proof.
  induction 1 as [|c l Hc _ IH]; cbn [Qsum fold_right]; [lra|].
  fold (Qsum l). lra.
Qed.

(** The value of a rounded quotient of sums, up to the representation of
    the sums. *)
Lemma weighted_div_value (ws : list Q) (d x : Q) (n : nat) :
  ~ (d == 0)%Q ->
  (x == Qsum ws / d)%Q ->
  py_round (fdiv (series_sum (map Fin ws)) (Fin d)) n = Fin (Qround_to n x).
Proof.
  intros Hnz Ex.
  destruct (series_sum_Fin ws) as (w & -> & Ew).
  cbn [fdiv]. rewrite Qis_zero_false by exact Hnz.
  cbn [py_round]. f_equal. apply Qround_to_compat. rewrite Ex, Ew. reflexivity.
Qed.

(** ** Grade lookup: every case *)

Ltac pick_disjunct := first [ lra | left; lra | right; pick_disjunct ].

Lemma lookup_cases (p : Q) :
  let r := percent_to_grade_point (VFloat (Fin p)) in
  ((90 <= p <= 100)%Q /\ r = ("O", Fin 10.0)) \/
  ((80 <= p <= 89.99)%Q /\ r = ("A+", Fin 9.0)) \/
  ((70 <= p <= 79.99)%Q /\ r = ("A", Fin 8.0)) \/
  ((60 <= p <= 69.99)%Q /\ r = ("B+", Fin 7.0)) \/
  ((50 <= p <= 59.99)%Q /\ r = ("B", Fin 6.0)) \/
  ((45 <= p <= 49.99)%Q /\ r = ("C", Fin 5.0)) \/
  ((40 <= p <= 44.99)%Q /\ r = ("D", Fin 4.0)) \/
  ((0 <= p <= 39.99)%Q /\ r = ("F", Fin 0.0)) \/
  (((p < 0)%Q \/ (100 < p)%Q \/ in_gap p) /\ r = ("", NaN)).
Proof.
  unfold percent_to_grade_point, in_gap. cbn [py_float]. rewrite grade_scan_Fin.
  qcases;
    first [ left; split; [lra|reflexivity]
          | right; left; split; [lra|reflexivity]
          | do 2 right; left; split; [lra|reflexivity]
          | do 3 right; left; split; [lra|reflexivity]
          | do 4 right; left; split; [lra|reflexivity]
          | do 5 right; left; split; [lra|reflexivity]
          | do 6 right; left; split; [lra|reflexivity]
          | do 7 right; left; split; [lra|reflexivity]
          | do 8 right; split; [pick_disjunct|reflexivity] ].
Qed.

Lemma two_decimals_not_in_gap (p : Q) : two_decimals p -> ~ in_gap p.
Proof.
  intros Hd G. destruct (two_decimals_gaps p Hd) as (G90 & G80 & G70 & G60 & G50 & G45 & G40).
  unfold in_gap in G.
  destruct G as [[A B]|[[A B]|[[A B]|[[A B]|[[A B]|[[A B]|[A B]]]]]]].
  - apply G40 in B. lra.
  - apply G45 in B. lra.
  - apply G50 in B. lra.
  - apply G60 in B. lra.
  - apply G70 in B. lra.
  - apply G80 in B. lra.
  - apply G90 in B. lra.
Qed.

(** C1 (as amended).  Take a percent in [[0,100]].  Outside the seven
    holes of the table (the percents strictly between the upper bound of
    a row and the lower bound of the next one, such as 89.999), exactly
    one row of the grade table contains it, [percent_to_grade_point]
    returns that row's label and grade point, and this is the band the
    half-open table of the specification gives.  In a hole, no row
    contains it and the lookup returns the empty label and NaN, though
    the half-open table has a band for it.  A percent written with at
    most two decimals is in no hole.  No percent at all is in two rows. *)
Theorem grade_lookup_outside_holes (p : Q) :
  (0 <= p <= 100)%Q ->
  (~ in_gap p ->
   exists mn mx lbl gp,
     List.filter (row_matches (Fin p)) PERCENT_TO_GRADE = [(mn, mx, lbl, gp)] /\
     percent_to_grade_point (VFloat (Fin p)) = (lbl, Fin gp) /\
     spec_band p = Some (lbl, gp)) /\
  (in_gap p ->
   List.filter (row_matches (Fin p)) PERCENT_TO_GRADE = [] /\
   percent_to_grade_point (VFloat (Fin p)) = ("", NaN) /\
   exists lbl gp, spec_band p = Some (lbl, gp)) /\
  (two_decimals p -> ~ in_gap p) /\
  (forall q : pyfloat, (length (List.filter (row_matches q) PERCENT_TO_GRADE) <= 1)%nat).
Proof.
  intros [H0 H100]. split; [|split; [|split; [apply two_decimals_not_in_gap|apply no_overlap]]].
  - intros Hng. pose proof (lookup_cases p) as Hc. cbv zeta in Hc.
    repeat (destruct Hc as [[R Hc]|Hc];
            [rewrite Hc; unfold spec_band;
             cbn [List.filter PERCENT_TO_GRADE row_matches]; rewrite !fle_Fin;
             qcases; do 4 eexists; repeat split; reflexivity|]).
    destruct Hc as [[F|[F|F]] _]; [exfalso; lra|exfalso; lra|contradiction].
  - intros G. unfold in_gap in G.
    unfold percent_to_grade_point, spec_band. cbn [py_float]. rewrite grade_scan_Fin.
    cbn [List.filter PERCENT_TO_GRADE row_matches]. rewrite !fle_Fin.
    destruct G as [[A B]|[[A B]|[[A B]|[[A B]|[[A B]|[[A B]|[A B]]]]]]];
      qcases; (split; [reflexivity|]); (split; [reflexivity|]);
      eexists; eexists; reflexivity.
Qed.

(** The boundary [p = 90] is the lowest percent of band O; [82.505],
    which has three decimals, is in band A+; [89.999] is in a hole. *)
Lemma grade_lookup_outside_holes_witness :
  percent_to_grade_point (VFloat (Fin 90)) = ("O", Fin 10.0) /\
  percent_to_grade_point (VFloat (Fin 82.505)) = ("A+", Fin 9.0) /\
  (exists mn mx lbl gp,
     List.filter (row_matches (Fin 82.505)) PERCENT_TO_GRADE = [(mn, mx, lbl, gp)] /\
     percent_to_grade_point (VFloat (Fin 82.505)) = (lbl, Fin gp) /\
     spec_band 82.505 = Some (lbl, gp)) /\
  (List.filter (row_matches (Fin 89.999)) PERCENT_TO_GRADE = [] /\
   percent_to_grade_point (VFloat (Fin 89.999)) = ("", NaN) /\
   exists lbl gp, spec_band 89.999 = Some (lbl, gp)).
Proof.
  split; [reflexivity|]. split; [reflexivity|]. split.
  - refine (proj1 (grade_lookup_outside_holes 82.505 _) _).
    + split; unfold Qle; cbn; lia.
    + unfold in_gap.
      intros [[A B]|[[A B]|[[A B]|[[A B]|[[A B]|[[A B]|[A B]]]]]]];
        revert A B; unfold Qlt; cbn; lia.
  - refine (proj1 (proj2 (grade_lookup_outside_holes 89.999 _)) _).
    + split; unfold Qle; cbn; lia.
    + unfold in_gap. do 6 right. split; unfold Qlt; cbn; lia.
Defined.

(** X1.  On [[0,100]] the lookup gives no grade exactly on the seven
    holes of the table, each 0.01 wide, below 40, 45, 50, 60, 70, 80
    and 90. *)
Theorem no_grade_iff_in_gap (p : Q) :
  (0 <= p <= 100)%Q ->
  (percent_to_grade_point (VFloat (Fin p)) = ("", NaN) <-> in_gap p).
Proof.
  intros [H0 H100]. pose proof (lookup_cases p) as H. cbv zeta in H.
  unfold in_gap in *. split.
  - intros E. rewrite E in H.
    repeat (destruct H as [[_ H]|H]; [discriminate H|]).
    destruct H as [[H|[H|H]] _]; [exfalso; lra|exfalso; lra|exact H].
  - intros G.
    repeat (destruct H as [[R _]|H]; [exfalso; intuition lra|]).
    destruct H as [_ H]. exact H.
Qed.

Lemma no_grade_iff_in_gap_witness :
  percent_to_grade_point (VFloat (Fin 39.995)) = ("", NaN) /\ ~ in_gap 39.99.
Proof.
  split.
  - apply (no_grade_iff_in_gap 39.995); [split; unfold Qle; cbn; lia|].
    unfold in_gap. left. split; unfold Qlt; cbn; lia.
  - intros G. apply (no_grade_iff_in_gap 39.99) in G; [discriminate G|].
    split; unfold Qle; cbn; lia.
Defined.

(** X2.  A higher percent never gets a lower grade point: of two
    percents that both get a grade, the larger has at least the grade
    point of the smaller. *)
Theorem grade_point_monotone (p q : Q) (l1 l2 : string) (g1 g2 : Q) :
  (p <= q)%Q ->
  percent_to_grade_point (VFloat (Fin p)) = (l1, Fin g1) ->
  percent_to_grade_point (VFloat (Fin q)) = (l2, Fin g2) ->
  (g1 <= g2)%Q.
Proof.
  intros Hpq E1 E2.
  pose proof (lookup_cases p) as Hp. pose proof (lookup_cases q) as Hq.
  cbv zeta in Hp, Hq. rewrite E1 in Hp. rewrite E2 in Hq.
  clear E1 E2.
  repeat (destruct Hp as [[Rp Hp]|Hp]; [injection Hp as -> ->|]);
    try (destruct Hp as [_ Hp]; discriminate Hp);
    repeat (destruct Hq as [[Rq Hq]|Hq];
            [injection Hq as -> ->; first [exfalso; lra | unfold Qle; cbn; lia]|]);
    destruct Hq as [_ Hq]; discriminate Hq.
Qed.

Lemma grade_point_monotone_witness :
  percent_to_grade_point (VFloat (Fin 55)) = ("B", Fin 6.0) /\
  percent_to_grade_point (VFloat (Fin 85.5)) = ("A+", Fin 9.0) /\
  (6.0 <= 9.0)%Q.
Proof.
  split; [reflexivity|]. split; [reflexivity|].
  apply (grade_point_monotone 55 85.5 "B" "A+" 6.0 9.0).
  - unfold Qle; cbn; lia.
  - reflexivity.
  - reflexivity.
Defined.

Lemma grade_scan_sound (p : pyfloat) (table : list (Q * Q * string * Q)) :
  grade_scan p table = ("", NaN) \/
  exists mn mx lbl gp,
    (mn, mx, lbl, gp) ∈ table /\
    fle (Fin mn) p = true /\ fle p (Fin mx) = true /\
    grade_scan p table = (lbl, Fin gp).
Proof.
  induction table as [|[[[mn mx] lbl] gp] table IH]; [left; reflexivity|].
  cbn [grade_scan].
  destruct (fle (Fin mn) p) eqn:E1; [destruct (fle p (Fin mx)) eqn:E2|]; cbn [andb].
  - right. exists mn, mx, lbl, gp. repeat split; try assumption. left.
  - destruct IH as [IH|(mn' & mx' & lbl' & gp' & Hin & IH)]; [left; exact IH|].
    right. exists mn', mx', lbl', gp'. split; [right; exact Hin|exact IH].
  - destruct IH as [IH|(mn' & mx' & lbl' & gp' & Hin & IH)]; [left; exact IH|].
    right. exists mn', mx', lbl', gp'. split; [right; exact Hin|exact IH].
Qed.

(** X3.  Whatever the input, the lookup returns either the pair of the
    empty label and NaN, or the label and grade point of a row of the
    table whose range contains the value [float()] reads; the label is
    then not empty. *)
Theorem lookup_result_shape (percent : pyval) :
  percent_to_grade_point percent = ("", NaN) \/
  exists p mn mx lbl gp,
    py_float percent = Ok p /\
    (mn, mx, lbl, gp) ∈ PERCENT_TO_GRADE /\
    fle (Fin mn) p = true /\ fle p (Fin mx) = true /\
    percent_to_grade_point percent = (lbl, Fin gp) /\
    lbl <> "".
Proof.
  unfold percent_to_grade_point.
  destruct (py_float percent) as [p|e]; [|left; reflexivity].
  destruct (grade_scan_sound p PERCENT_TO_GRADE) as [H|(mn & mx & lbl & gp & Hin & H1 & H2 & H)];
    [left; exact H|].
  right. exists p, mn, mx, lbl, gp. repeat split; try assumption.
  unfold PERCENT_TO_GRADE in Hin.
  clear H H1 H2.
  repeat (apply elem_of_cons in Hin as [[= -> -> -> ->]|Hin]; [discriminate|]).
  apply elem_of_nil in Hin. contradiction.
Qed.

(** ** Target planner: range and soundness *)

Lemma planner_needed_value (cie target lb : Q) :
  lowerBoundFor target = Some lb ->
  exists r,
    planner_needed (Fin cie) (Fin target) = StSuccess (Fin r) /\
    (r == clamp (lb - cie) 0 50)%Q.
Proof.
  intros Hlb. unfold planner_needed.
  rewrite (lowerBoundFor_find_lower _ _ Hlb).
  cbn [fsub fneg fadd]. unfold py_min, py_max, fgt. rewrite flt_Fin.
  unfold clamp, Qminus.
  destruct (Qltb (lb + - cie) 50.0) eqn:E1; rewrite flt_Fin;
    [apply Qltb_true in E1|apply Qltb_false in E1];
    qcases; eexists; (split; [reflexivity|]); lra.
Qed.

(** X4.  Whatever the current score and the target are (NaN and the
    infinities included), the planner either reports "Target not valid."
    or asks for a finite score between 0 and 50. *)
Theorem planner_needed_range (cie target_gp : pyfloat) :
  planner_needed cie target_gp = StError "Target not valid." \/
  exists r, planner_needed cie target_gp = StSuccess (Fin r) /\ (0 <= r <= 50)%Q.
Proof.
  unfold planner_needed.
  destruct (find_lower target_gp PERCENT_TO_GRADE) as [lower|]; [right|left; reflexivity].
  destruct cie as [c|s|].
  - cbn [fsub fneg fadd]. unfold py_min, py_max, fgt. rewrite flt_Fin.
    destruct (Qltb (lower + - c) 50.0) eqn:E1; rewrite flt_Fin;
      [apply Qltb_true in E1|apply Qltb_false in E1];
      qcases; eexists; (split; [reflexivity|]); lra.
  - destruct s; eexists; (split; [reflexivity|]); lra.
  - eexists; (split; [reflexivity|]); lra.
Qed.

(** X5.  For a target that is the grade point of a band, with lower
    bound [lb]: if the missing [lb - cie] is between 0 and 50, the score
    asked for brings the total exactly to [lb], and the lookup then
    gives the target grade point; if more than 50 is missing, the planner
    asks for 50 and the total stays below [lb]; if nothing is missing it
    asks for 0. *)
Theorem planner_reaches_target (cie target lb : Q) :
  lowerBoundFor target = Some lb ->
  exists need,
    planner_needed (Fin cie) (Fin target) = StSuccess (Fin need) /\
    ((0 <= lb - cie <= 50)%Q ->
     exists lbl gp,
       percent_to_grade_point (VFloat (fadd (Fin cie) (Fin need))) = (lbl, Fin gp) /\
       (gp == target)%Q /\ (cie + need == lb)%Q) /\
    ((50 < lb - cie)%Q -> (need == 50)%Q /\ (cie + need < lb)%Q) /\
    ((lb - cie <= 0)%Q -> (need == 0)%Q).
Proof.
  intros Hlb.
  destruct (planner_needed_value cie target lb Hlb) as (need & Hn & Hc).
  exists need. split; [exact Hn|]. unfold clamp in Hc. split; [|split].
  - intros [Hlo Hhi].
    assert (E : (cie + need == lb)%Q).
    { revert Hc. qcases; intros Hc; lra. }
    cbn [fadd]. pose proof (lookup_cases (cie + need)) as Hcases. cbv zeta in Hcases.
    unfold in_gap in Hcases.
    unfold lowerBoundFor in Hlb.
    repeat match type of Hlb with
           | context [Qeq_bool target ?c] =>
               let T := fresh "T" in
               destruct (Qeq_bool target c) eqn:T;
               [apply Qeq_bool_iff in T; injection Hlb as <-;
                repeat (destruct Hcases as [[R Hcases]|Hcases];
                        [first [exfalso; lra
                               | rewrite Hcases; eexists; eexists;
                                 split; [reflexivity|split; [rewrite T; reflexivity|exact E]]]|]);
                destruct Hcases as [R _]; exfalso; intuition lra
               |]
           end.
    discriminate Hlb.
  - intros H. revert Hc. qcases; intros Hc; split; lra.
  - intros H. revert Hc. qcases; intros Hc; lra.
Qed.

Lemma planner_reaches_target_witness :
  exists need,
    planner_needed (Fin 32.5) (Fin 9.0) = StSuccess (Fin need) /\
    ((0 <= 80 - 32.5 <= 50)%Q ->
     exists lbl gp,
       percent_to_grade_point (VFloat (fadd (Fin 32.5) (Fin need))) = (lbl, Fin gp) /\
       (gp == 9.0)%Q /\ (32.5 + need == 80)%Q) /\
    ((50 < 80 - 32.5)%Q -> (need == 50)%Q /\ (32.5 + need < 80)%Q) /\
    ((80 - 32.5 <= 0)%Q -> (need == 0)%Q).
Proof. apply (planner_reaches_target 32.5 9.0 80). reflexivity. Defined.

(** ** Semester average: value and range *)

Lemma sgpa_from_df_value (df : list row) :
  Forall (fun r => finite_cells r = true) df ->
  let subjects := graded df in
  let total := Qsum (map snd subjects) in
  let weighted := Qsum (map (fun pc => pc.1 * pc.2)%Q subjects) in
  ((total == 0)%Q -> sgpa_from_df df = None) /\
  (~ (total == 0)%Q ->
   sgpa_from_df df = Some (Fin (Qround_to GPA_DECIMALS (weighted / total)))).
Proof.
  intros Hfin subjects total weighted.
  unfold sgpa_from_df. rewrite (used_graded df Hfin). fold subjects.
  rewrite !map_map. cbn [fst snd fmul].
  change (map (fun x : Q * Q => Fin x.2) subjects) with (map (fun x : Q * Q => Fin (snd x)) subjects).
  rewrite <- (map_map snd Fin subjects).
  rewrite <- (map_map (fun pc : Q * Q => (pc.1 * pc.2)%Q) Fin subjects).
  fold total.
  destruct (series_sum_Fin (map snd subjects)) as (t & Ht & Et). fold total in Et.
  rewrite Ht. split.
  - intros Hz. rewrite (proj2 (feqb_Fin_zero t)) by (rewrite Et; exact Hz). reflexivity.
  - intros Hnz.
    assert (Hf : feqb (Fin t) (Fin 0) = false).
    { apply not_true_iff_false. rewrite feqb_Fin_zero, Et. exact Hnz. }
    rewrite Hf. f_equal.
    apply weighted_div_value; [rewrite Et; exact Hnz|].
    fold weighted. rewrite Et. reflexivity.
Qed.

Lemma sgpa_in_range (df : list row) :
  Forall (fun r => finite_cells r = true) df ->
  Forall (fun pc : Q * Q => (0 <= pc.1 <= 10)%Q /\ (0 <= pc.2)%Q) (graded df) ->
  ((Qsum (map snd (graded df)) == 0)%Q /\ sgpa_from_df df = None) \/
  ((0 < Qsum (map snd (graded df)))%Q /\
   exists r, sgpa_from_df df = Some (Fin r) /\ (0 <= r <= 10)%Q).
Proof.
  intros Hfin Hr. destruct (sgpa_from_df_value df Hfin) as [Hz Hnz].
  assert (Hc : (0 <= Qsum (map snd (graded df)))%Q).
  { apply Qsum_nonneg. apply Forall_map. eapply Forall_impl; [exact Hr|].
    intros pc [_ H]. exact H. }
  destruct (Qeq_dec (Qsum (map snd (graded df))) 0) as [E|N].
  - left. split; [exact E|apply Hz; exact E].
  - right. assert (Hpos : (0 < Qsum (map snd (graded df)))%Q) by lra.
    split; [exact Hpos|]. eexists. split; [apply Hnz; exact N|].
    apply (Qround_to_between GPA_DECIMALS 0 10000); [reflexivity|reflexivity|].
    apply weighted_mean_bounds; assumption.
Qed.

(** X7.  On a data frame without infinite cells whose graded subjects
    have grade points in [[0,10]] and credits that are not negative,
    [sgpa_from_df] returns either [None] or a number in [[0,10]]. *)
Theorem sgpa_between_0_and_10 (df : list row) :
  Forall (fun r => finite_cells r = true) df ->
  Forall (fun pc : Q * Q => (0 <= pc.1 <= 10)%Q /\ (0 <= pc.2)%Q) (graded df) ->
  sgpa_from_df df = None \/
  exists r, sgpa_from_df df = Some (Fin r) /\ (0 <= r <= 10)%Q.
Proof.
  intros Hfin Hr. destruct (sgpa_in_range df Hfin Hr) as [[_ H]|[_ H]]; [left|right]; exact H.
Qed.

Lemma sgpa_between_0_and_10_witness :
  sgpa_from_df [ {| Credits := VInt 3; Grade_Point := VFloat (Fin 10.0) |};
                 {| Credits := VInt 1; Grade_Point := VFloat (Fin 0.0) |} ] = None \/
  exists r,
    sgpa_from_df [ {| Credits := VInt 3; Grade_Point := VFloat (Fin 10.0) |};
                   {| Credits := VInt 1; Grade_Point := VFloat (Fin 0.0) |} ] = Some (Fin r) /\
    (0 <= r <= 10)%Q.
Proof.
  apply (sgpa_between_0_and_10
           [ {| Credits := VInt 3; Grade_Point := VFloat (Fin 10.0) |};
             {| Credits := VInt 1; Grade_Point := VFloat (Fin 0.0) |} ]).
  - repeat constructor.
  - repeat constructor; unfold Qle; cbn; lia.
Defined.

(** ** The semester page *)

Lemma graded_point_range (p : Q) (lbl : string) (g : Q) :
  percent_to_grade_point (VFloat (Fin p)) = (lbl, Fin g) -> (0 <= g <= 10)%Q.
Proof.
  intros E. pose proof (lookup_cases p) as H. cbv zeta in H. rewrite E in H.
  repeat (destruct H as [[_ H]|H];
          [injection H as -> ->; split; unfold Qle; cbn; lia|]).
  destruct H as [_ H]. discriminate H.
Qed.

Lemma subject_row_form (s : subject) :
  form_subject s ->
  exists g,
    subject_row s = {| Credits := VInt (subject_credits s); Grade_Point := VFloat (Fin g) |} /\
    (0 <= g <= 10)%Q.
Proof.
  intros (_ & H1 & H2 & H3 & H4). unfold subject_row.
  destruct (subject_total_on_grid _ _ _ _ H1 H2 H3 H4) as (q & -> & Hr & Hd).
  destruct (lookup_on_grid q Hr Hd) as (mn & mx & lbl & gp & _ & Hl & _).
  rewrite Hl. exists gp. split; [reflexivity|].
  apply (graded_point_range q lbl gp Hl).
Qed.

Lemma form_rows (subjects : list subject) :
  Forall form_subject subjects ->
  Forall (fun r => finite_cells r = true) (map subject_row subjects) /\
  Forall (fun pc : Q * Q => (0 <= pc.1 <= 10)%Q /\ (0 <= pc.2)%Q)
         (graded (map subject_row subjects)) /\
  (Qsum (map snd (graded (map subject_row subjects)))
   == inject_Z (Zsum (map subject_credits subjects)))%Q.
Proof.
  induction 1 as [|s subjects Hs _ (IH1 & IH2 & IH3)].
  - repeat split; try constructor.
  - destruct (subject_row_form s Hs) as (g & Eg & Hg).
    destruct Hs as ([Hc _] & _).
    cbn [map]. rewrite Eg. unfold graded in *. cbn [omap list_omap].
    cbn [to_numeric_coerce Grade_Point Credits fillna0].
    cbn [map snd Qsum Zsum fold_right]. repeat split.
    + constructor; [reflexivity|exact IH1].
    + constructor; [|exact IH2]. cbn [fst snd]. split; [exact Hg|].
      change 0%Q with (inject_Z 0). rewrite <- Zle_Qle. exact Hc.
    + fold (Qsum (map snd (omap (fun r =>
             match to_numeric_coerce (Grade_Point r), fillna0 (to_numeric_coerce (Credits r)) with
             | Fin p, Fin c => Some (p, c)
             | _, _ => None
             end) (map subject_row subjects)))).
      fold (Zsum (map subject_credits subjects)).
      rewrite IH3, inject_Z_plus. reflexivity.
Qed.

Lemma Zsum_zero_iff (l : list Z) :
  Forall (fun z => 0 <= z) l -> (Zsum l = 0 <-> Forall (fun z => z = 0) l).
Proof.
  induction 1 as [|z l Hz Hl IH]; cbn [Zsum fold_right].
  - split; [constructor|reflexivity].
  - fold (Zsum l).
    assert (Hn : 0 <= Zsum l).
    { clear IH. induction Hl as [|y l Hy _ IHl]; cbn [Zsum fold_right]; [lia|].
      fold (Zsum l). lia. }
    split.
    + intros E. constructor; [lia|]. apply IH. lia.
    + intros H. apply Forall_cons in H as [-> H]. apply IH in H. lia.
Qed.

(** X9.  For subjects entered through the form (integer marks and
    credits within the form's bounds) every subject gets a grade point,
    so the semester has a SGPA unless every subject has 0 credits, and
    that SGPA lies in [[0,10]]. *)
Theorem semester_sgpa_of_form (subjects : list subject) :
  Forall form_subject subjects ->
  (semester_sgpa subjects = None <-> Forall (fun s => subject_credits s = 0) subjects) /\
  (forall x, semester_sgpa subjects = Some x -> exists r, x = Fin r /\ (0 <= r <= 10)%Q).
Proof.
  intros Hf. destruct (form_rows subjects Hf) as (H1 & H2 & H3).
  assert (Hz : Zsum (map subject_credits subjects) = 0 <->
               Forall (fun s => subject_credits s = 0) subjects).
  { rewrite Zsum_zero_iff.
    - rewrite Forall_map. reflexivity.
    - apply Forall_map. eapply Forall_impl; [exact Hf|]. intros s ([H _] & _). exact H. }
  unfold semester_sgpa.
  destruct (sgpa_in_range _ H1 H2) as [[E HN]|[Hpos (r & HS & Hr)]].
  - split.
    + split; [intros _|intros _; exact HN].
      apply Hz. rewrite H3 in E.
      exact (proj1 (inject_Z_injective _ 0) E).
    + intros x Hx. rewrite HN in Hx. discriminate Hx.
  - split.
    + split; [intros HN; rewrite HS in HN; discriminate HN|].
      intros Hall. apply Hz in Hall. rewrite H3, Hall in Hpos.
      exfalso. revert Hpos. unfold Qlt. cbn. lia.
    + intros x Hx. rewrite HS in Hx. injection Hx as <-. exists r. split; [reflexivity|exact Hr].
Qed.

Lemma semester_sgpa_of_form_witness :
  semester_sgpa
    [ {| Subject := "Maths"; subject_credits := 0; Mid1_out_of_40 := 31;
         Mid2_out_of_40 := 36; Presentation_out_of_10 := 8; SEE_out_of_50 := 41 |} ] = None /\
  exists r,
    semester_sgpa
      [ {| Subject := "Maths"; subject_credits := 4; Mid1_out_of_40 := 31;
           Mid2_out_of_40 := 36; Presentation_out_of_10 := 8; SEE_out_of_50 := 41 |};
        {| Subject := "Physics"; subject_credits := 3; Mid1_out_of_40 := 20;
           Mid2_out_of_40 := 25; Presentation_out_of_10 := 5; SEE_out_of_50 := 20 |} ]
    = Some (Fin r) /\ (0 <= r <= 10)%Q.
Proof.
  split.
  - apply (semester_sgpa_of_form
             [ {| Subject := "Maths"; subject_credits := 0; Mid1_out_of_40 := 31;
                  Mid2_out_of_40 := 36; Presentation_out_of_10 := 8; SEE_out_of_50 := 41 |} ]).
    + repeat constructor; cbn; lia.
    + repeat constructor.
  - destruct (semester_sgpa_of_form
                [ {| Subject := "Maths"; subject_credits := 4; Mid1_out_of_40 := 31;
                     Mid2_out_of_40 := 36; Presentation_out_of_10 := 8; SEE_out_of_50 := 41 |};
                  {| Subject := "Physics"; subject_credits := 3; Mid1_out_of_40 := 20;
                     Mid2_out_of_40 := 25; Presentation_out_of_10 := 5; SEE_out_of_50 := 20 |} ])
      as [_ H].
    + repeat constructor; cbn; lia.
    + destruct (H _ eq_refl) as (r & Er & Hr).
      exists r. split; [rewrite <- Er; reflexivity|exact Hr].
Defined.

(** ** The history file: what a page leaves behind *)

Lemma load_history_insert_other (name : string) (x : file) (fs : gmap string file) :
  name <> HISTORY_FILE ->
  (load_history (<[name := x]> fs)).1 = (load_history fs).1.
Proof.
  intros Hn. unfold load_history, io_try, read_json.
  rewrite lookup_insert_ne by exact Hn.
  destruct (fs !! HISTORY_FILE) as [[|v]|]; reflexivity.
Qed.

Lemma append_history_list (fs : gmap string file) (h : list json) (entry : json) :
  (load_history fs).1 = Ok (JList h) ->
  append_history entry fs = (Ok tt, <[HISTORY_FILE := Json (JList (h ++ [entry]))]> fs).
Proof.
  intros H. destruct (load_history_total fs) as [v Hv].
  rewrite Hv in H. cbn in H. injection H as ->.
  unfold append_history, mbind, io_mbind, io_bind. rewrite Hv. reflexivity.
Qed.

Lemma load_history_written (fs : gmap string file) (v : json) :
  load_history (<[HISTORY_FILE := Json v]> fs) = (Ok v, <[HISTORY_FILE := Json v]> fs).
Proof. unfold load_history, io_try, read_json. by rewrite lookup_insert_eq. Qed.

(** X10.  Saving a semester.  When there is no SGPA the page reports
    the error and writes nothing.  When there is one and the write of
    the CSV file raises, the run ends there: nothing is written and the
    history gets no entry; when the write of the PDF file raises, the CSV
    file stays and the history gets no entry.  When there is one, the names are plain file
    names, no write raises and the history reads as a list, the page
    writes the CSV file (and the PDF file when it has one) and the
    history becomes the former entries followed by the semester's entry,
    which carries that SGPA and a null rating. *)
Theorem semester_page_saves (write_fails : string -> bool) (ts : string)
    (student hallticket program : json) (sem : Z)
    (csv_name : string) (pdf_name : option string) (subjects : list subject)
    (fs : gmap string file) (h : list json) :
  (load_history fs).1 = Ok (JList h) ->
  (semester_sgpa subjects = None ->
   semester_page write_fails ts student hallticket program sem csv_name pdf_name subjects fs
   = (Ok (StError "Could not compute SGPA (check credits)."), fs)) /\
  (forall x, semester_sgpa subjects = Some x ->
   write_fails csv_name = true ->
   semester_page write_fails ts student hallticket program sem csv_name pdf_name subjects fs
   = (Raise OSError, fs)) /\
  (forall x name, semester_sgpa subjects = Some x ->
   write_fails csv_name = false -> pdf_name = Some name -> write_fails name = true ->
   semester_page write_fails ts student hallticket program sem csv_name pdf_name subjects fs
   = (Raise OSError, <[csv_name := NotJson]> fs)) /\
  (forall x, semester_sgpa subjects = Some x ->
   plain_file_name csv_name = true -> write_fails csv_name = false ->
   csv_name <> HISTORY_FILE ->
   (forall name, pdf_name = Some name ->
      plain_file_name name = true /\ write_fails name = false /\ name <> HISTORY_FILE) ->
   exists fs' entry,
     semester_page write_fails ts student hallticket program sem csv_name pdf_name subjects fs
     = (Ok (StSuccess x), fs') /\
     load_history fs' = (Ok (JList (h ++ [entry])), fs') /\
     dict_get entry "sgpa" = Ok (JFloat x) /\
     dict_get entry "rating" = Ok JNull /\
     fs' !! csv_name = Some NotJson /\
     (forall name, pdf_name = Some name -> fs' !! name = Some NotJson)).
Proof.
  intros Hh. unfold semester_page. split; [|split; [|split]].
  - intros ->. reflexivity.
  - intros x -> Hw.
    unfold mbind, io_mbind, io_bind, save_file. rewrite Hw. reflexivity.
  - intros x name -> Hw -> Hwn.
    unfold mbind, io_mbind, io_bind, save_file. rewrite Hw, Hwn. reflexivity.
  - intros x -> _ Hw Hcsv Hpdf.
    unfold mbind, io_mbind, io_bind, mret, io_mret, io_ret, save_file. rewrite Hw.
    destruct pdf_name as [name|].
    + destruct (Hpdf name eq_refl) as (_ & Hwn & Hname). rewrite Hwn.
      rewrite (append_history_list _ h);
        [|rewrite !load_history_insert_other by assumption; exact Hh].
      eexists. eexists. split; [reflexivity|]. split; [apply load_history_written|].
      split; [reflexivity|]. split; [reflexivity|]. split.
      * rewrite lookup_insert_ne by congruence.
        destruct (decide (name = csv_name)) as [->|Hne];
          [apply lookup_insert_eq|rewrite lookup_insert_ne by exact Hne; apply lookup_insert_eq].
      * intros n [= <-]. rewrite lookup_insert_ne by congruence. apply lookup_insert_eq.
    + rewrite (append_history_list _ h);
        [|rewrite !load_history_insert_other by assumption; exact Hh].
      eexists. eexists. split; [reflexivity|]. split; [apply load_history_written|].
      split; [reflexivity|]. split; [reflexivity|]. split.
      * rewrite lookup_insert_ne by congruence. apply lookup_insert_eq.
      * intros n [=].
Qed.

(** A student's name with a path separator: the CSV would go to a
    directory that does not exist, the write raises, and the history
    keeps its entries; with an ordinary name the semester is recorded. *)
Lemma semester_page_saves_witness :
  plain_file_name "A/B_Sem1_20250101_101500.csv" = false /\
  semester_page (fun name => negb (plain_file_name name))
    "20250101_101500" (JStr "A/B") (JStr "25EU08R0111") (JStr "B.Tech") 1
    "A/B_Sem1_20250101_101500.csv" None
    [ {| Subject := "Maths"; subject_credits := 4; Mid1_out_of_40 := 40;
         Mid2_out_of_40 := 40; Presentation_out_of_10 := 10; SEE_out_of_50 := 50 |} ]
    {[ HISTORY_FILE := Json (JList [JStr "earlier"]) ]}
  = (Raise OSError, {[ HISTORY_FILE := Json (JList [JStr "earlier"]) ]}) /\
  exists fs' entry,
    semester_page (fun name => negb (plain_file_name name))
      "20250101_101500" (JStr "D. Soumith") (JStr "25EU08R0111") (JStr "B.Tech") 1
      "D._Soumith_Sem1_20250101_101500.csv" None
      [ {| Subject := "Maths"; subject_credits := 4; Mid1_out_of_40 := 40;
           Mid2_out_of_40 := 40; Presentation_out_of_10 := 10; SEE_out_of_50 := 50 |} ]
      {[ HISTORY_FILE := Json (JList [JStr "earlier"]) ]}
    = (Ok (StSuccess (Fin 10)), fs') /\
    load_history fs' = (Ok (JList ([JStr "earlier"] ++ [entry])), fs') /\
    dict_get entry "sgpa" = Ok (JFloat (Fin 10)) /\
    dict_get entry "rating" = Ok JNull /\
    fs' !! "D._Soumith_Sem1_20250101_101500.csv" = Some NotJson /\
    (forall name, None = Some name -> fs' !! name = Some NotJson).
Proof.
  split; [reflexivity|]. split.
  - refine (proj1 (proj2 (semester_page_saves (fun name => negb (plain_file_name name))
                            "20250101_101500" (JStr "A/B") (JStr "25EU08R0111") (JStr "B.Tech") 1
                            "A/B_Sem1_20250101_101500.csv" None _
                            {[ HISTORY_FILE := Json (JList [JStr "earlier"]) ]}
                            [JStr "earlier"] _)) (Fin 10) _ _).
    + reflexivity.
    + vm_compute. reflexivity.
    + reflexivity.
  - refine (proj2 (proj2 (proj2 (semester_page_saves (fun name => negb (plain_file_name name))
                            "20250101_101500" (JStr "D. Soumith") (JStr "25EU08R0111")
                            (JStr "B.Tech") 1 "D._Soumith_Sem1_20250101_101500.csv" None _
                            {[ HISTORY_FILE := Json (JList [JStr "earlier"]) ]}
                            [JStr "earlier"] _))) (Fin 10) _ _ _ _ _).
    + reflexivity.
    + vm_compute. reflexivity.
    + reflexivity.
    + reflexivity.
    + discriminate.
    + intros name [=].
Defined.

(** X11.  Recording several entries one after the other, from a state
    whose history reads as a list, leaves a history that is the former
    one followed by all of them, in the order they were recorded. *)
Theorem append_each_in_order (entries : list json) (fs : gmap string file) (h : list json) :
  (load_history fs).1 = Ok (JList h) ->
  exists fs',
    append_each entries fs = (Ok tt, fs') /\
    load_history fs' = (Ok (JList (h ++ entries)), fs').
Proof.
  revert fs h. induction entries as [|e entries IH]; intros fs h Hh.
  - exists fs. split; [reflexivity|]. rewrite app_nil_r.
    destruct (load_history_total fs) as [v Hv]. rewrite Hv in *. cbn in Hh. congruence.
  - cbn [append_each]. unfold mbind, io_mbind, io_bind.
    rewrite (append_history_list fs h e Hh).
    destruct (IH (<[HISTORY_FILE := Json (JList (h ++ [e]))]> fs) (h ++ [e])) as (fs' & Hr & Hl).
    + rewrite load_history_written. reflexivity.
    + exists fs'. split; [exact Hr|]. rewrite <- app_assoc in Hl. exact Hl.
Qed.

Lemma append_each_in_order_witness :
  exists fs',
    append_each [JStr "a"; JStr "b"; JStr "c"] (∅ : gmap string file) = (Ok tt, fs') /\
    load_history fs' = (Ok (JList ([] ++ [JStr "a"; JStr "b"; JStr "c"])), fs').
Proof. apply (append_each_in_order [JStr "a"; JStr "b"; JStr "c"] ∅ []). reflexivity. Defined.

(** X12.  Recording an entry touches no file but the history; a reset
    keeps, besides the new empty history, exactly the files whose unlink
    failed, so that when every unlink succeeds the folder holds the
    empty history and nothing else. *)
Theorem history_writers_frame (fs : gmap string file) (entry : json) (name : string) :
  name <> HISTORY_FILE ->
  (forall fs' r, append_history entry fs = (r, fs') -> fs' !! name = fs !! name) /\
  (forall unlink_fails fs',
     reset_history unlink_fails fs = (Ok tt, fs') ->
     fs' !! name = (if unlink_fails name then fs !! name else None)) /\
  reset_history (fun _ => false) fs = (Ok tt, {[ HISTORY_FILE := Json (JList []) ]}).
Proof.
  intros Hn. split; [|split].
  - intros fs' r. unfold append_history, mbind, io_mbind, io_bind.
    destruct (load_history_total fs) as [v ->].
    destruct v; cbn; intros [= _ <-]; try reflexivity.
    rewrite lookup_insert_ne by congruence. reflexivity.
  - intros uf fs' [= <-]. rewrite lookup_insert_ne by congruence.
    destruct (uf name) eqn:E.
    + destruct (fs !! name) as [x|] eqn:L.
      * apply map_lookup_filter_Some. split; [exact L|exact E].
      * apply map_lookup_filter_None. left. exact L.
    + apply map_lookup_filter_None. right. intros x _. cbn. congruence.
  - unfold reset_history, unlink_all, mbind, io_mbind, io_bind, save_history, write_json.
    f_equal. apply map_eq. intros k.
    destruct (decide (k = HISTORY_FILE)) as [->|Hk].
    + rewrite lookup_insert_eq, lookup_singleton_eq. reflexivity.
    + rewrite lookup_insert_ne, lookup_singleton_ne by congruence.
      apply map_lookup_filter_None. right. intros x _. cbn. congruence.
Qed.

Lemma history_writers_frame_witness :
  (append_history (JStr "entry") {[ "report.csv" := NotJson ]}).2 !! "report.csv"
  = ({[ "report.csv" := NotJson ]} : gmap string file) !! "report.csv".
Proof.
  destruct (append_history (JStr "entry") {[ "report.csv" := NotJson ]}) as [r fs'] eqn:E.
  cbn [snd].
  refine (proj1 (history_writers_frame {[ "report.csv" := NotJson ]} (JStr "entry")
                   "report.csv" _) fs' r E).
  discriminate.
Defined.

(** ** Ratings *)

Lemma ratings_of_snoc (h : list json) (rs : list json) (e : json) :
  ratings_of h = Ok rs ->
  ratings_of (h ++ [e])
  = rbind (dict_get e "rating") (fun r => Ok (if is_null r then rs else rs ++ [r])).
Proof.
  revert rs. induction h as [|x h IH]; intros rs H; cbn [app ratings_of] in *.
  - injection H as <-. destruct (dict_get e "rating") as [r|]; reflexivity.
  - destruct (dict_get x "rating") as [rx|ex]; cbn [rbind] in *; [|discriminate H].
    destruct (ratings_of h) as [rh|eh]; cbn [rbind] in *; [|discriminate H].
    injection H as <-. rewrite (IH rh eq_refl).
    destruct (dict_get e "rating") as [r|]; cbn [rbind]; [|reflexivity].
    destruct (is_null r), (is_null rx); reflexivity.
Qed.

(** X13.  What each page adds to the ratings the administrator reads:
    a saved semester adds nothing (its rating is null); a submitted
    rating and a saved plan add their rating at the end. *)
Theorem page_entries_ratings (h rs : list json) :
  ratings_of h = Ok rs ->
  (forall ts student hallticket program sem sgpa csv pdf,
     ratings_of (h ++ [sgpa_entry ts student hallticket program sem sgpa csv pdf]) = Ok rs) /\
  (forall ts student hallticket program rating feedback,
     ratings_of (h ++ [rating_entry ts student hallticket program rating feedback])
     = Ok (rs ++ [JInt rating])) /\
  (forall ts student hallticket program target_gp needed plan_rows rating,
     ratings_of (h ++ [planner_entry ts student hallticket program target_gp needed
                         plan_rows rating])
     = Ok (rs ++ [JInt rating])).
Proof.
  intros H. repeat split; intros; rewrite (ratings_of_snoc h rs _ H); reflexivity.
Qed.

Lemma page_entries_ratings_witness :
  ratings_of ([rating_entry "t0" JNull JNull JNull 4 ""]
              ++ [rating_entry "t1" (JStr "A") (JStr "B") (JStr "C") 5 "fine"])
  = Ok ([JInt 4] ++ [JInt 5]).
Proof.
  apply (page_entries_ratings [rating_entry "t0" JNull JNull JNull 4 ""] [JInt 4]).
  reflexivity.
Defined.

Lemma ratings_of_app_entries (history : list json) :
  Forall app_entry history ->
  exists rs,
    ratings_of history = Ok rs /\
    Forall (fun r => exists z, r = JInt z /\ 1 <= z <= 5) rs.
Proof.
  induction 1 as [|e history (fields & -> & He) _ (rs & IH & Hrs)].
  - exists []. split; [reflexivity|constructor].
  - cbn [ratings_of dict_get]. rewrite IH.
    destruct He as [->|[->|(z & -> & Hz)]]; cbn [rbind is_null].
    + exists rs. split; [reflexivity|exact Hrs].
    + exists rs. split; [reflexivity|exact Hrs].
    + exists (JInt z :: rs). split; [reflexivity|]. constructor; [|exact Hrs].
      exists z. split; [reflexivity|exact Hz].
Qed.

Lemma py_sum_ratings (rs : list json) (acc : Q) :
  Forall (fun r => exists z, r = JInt z /\ 1 <= z <= 5) rs ->
  exists t,
    fold_left (fun a v => rbind a (fun a => rbind (json_number v) (fun x => Ok (fadd a x))))
              rs (Ok (Fin acc)) = Ok (Fin t) /\
    (acc + inject_Z (Z.of_nat (length rs)) <= t
     <= acc + 5 * inject_Z (Z.of_nat (length rs)))%Q.
Proof.
  intros H. revert acc. induction H as [|r rs (z & -> & Hz) _ IH]; intros acc.
  - exists acc. split; [reflexivity|]. cbn [length].
    change (inject_Z (Z.of_nat 0)) with 0%Q. lra.
  - cbn [fold_left json_number rbind fadd length].
    destruct (IH (acc + inject_Z z)%Q) as (t & Ht & Hb).
    exists t. split; [exact Ht|].
    rewrite Nat2Z.inj_succ, <- Z.add_1_r, inject_Z_plus.
    change (inject_Z 1) with 1%Q.
    assert (Z1 : (1 <= inject_Z z)%Q) by (change 1%Q with (inject_Z 1); rewrite <- Zle_Qle; lia).
    assert (Z5 : (inject_Z z <= 5)%Q) by (change 5%Q with (inject_Z 5); rewrite <- Zle_Qle; lia).
    lra.
Qed.

(** X14.  On a history made of the pages' entries (objects whose rating
    is absent, null, or an integer from 1 to 5) the administrator's
    average never raises; there is none when no entry is rated, and
    otherwise it lies between 1 and 5. *)
Theorem average_rating_of_app_entries (history : list json) :
  Forall app_entry history ->
  exists rs,
    ratings_of history = Ok rs /\
    (rs = [] -> average_rating history = Ok None) /\
    (rs <> [] -> exists a, average_rating history = Ok (Some (Fin a)) /\ (1 <= a <= 5)%Q).
Proof.
  intros H. destruct (ratings_of_app_entries history H) as (rs & Hr & Hrs).
  exists rs. split; [exact Hr|]. unfold average_rating. rewrite Hr. cbn [rbind].
  split; [intros ->; reflexivity|]. intros Hne.
  destruct rs as [|r rs']; [contradiction|]. set (l := r :: rs') in *.
  destruct (py_sum_ratings l 0 Hrs) as (t & Ht & Hb).
  unfold py_sum. rewrite Ht. cbn [rbind fdiv].
  assert (Hn : (0 < inject_Z (Z.of_nat (length l)))%Q).
  { change 0%Q with (inject_Z 0). rewrite <- Zlt_Qlt. subst l. cbn [length]. lia. }
  rewrite Qis_zero_false by lra.
  eexists. split; [reflexivity|]. split.
  - apply Qle_shift_div_l; [exact Hn|]. lra.
  - apply Qle_shift_div_r; [exact Hn|]. lra.
Qed.

Lemma average_rating_of_app_entries_witness :
  exists rs,
    ratings_of [ sgpa_entry "t0" JNull JNull JNull 1 (Fin 8.6) "results/a.csv" None;
                 rating_entry "t1" JNull JNull JNull 4 "";
                 rating_entry "t2" JNull JNull JNull 5 "good" ] = Ok rs /\
    (rs = [] ->
     average_rating [ sgpa_entry "t0" JNull JNull JNull 1 (Fin 8.6) "results/a.csv" None;
                      rating_entry "t1" JNull JNull JNull 4 "";
                      rating_entry "t2" JNull JNull JNull 5 "good" ] = Ok None) /\
    (rs <> [] ->
     exists a,
       average_rating [ sgpa_entry "t0" JNull JNull JNull 1 (Fin 8.6) "results/a.csv" None;
                        rating_entry "t1" JNull JNull JNull 4 "";
                        rating_entry "t2" JNull JNull JNull 5 "good" ] = Ok (Some (Fin a)) /\
       (1 <= a <= 5)%Q).
Proof.
  apply average_rating_of_app_entries.
  repeat constructor; eexists; (split; [reflexivity|]).
  - right. left. reflexivity.
  - right. right. exists 4. split; [reflexivity|lia].
  - right. right. exists 5. split; [reflexivity|lia].
Defined.

(** ** Cumulative average: value and range *)

Lemma compute_cgpa_value (pairs : list (Z * Q * Z)) :
  let kept := List.filter (fun t => negb (Qle_bool t.1.2 0)) pairs in
  let total := Zsum (map snd kept) in
  let weighted := Qsum (map (fun t => t.1.2 * inject_Z t.2)%Q kept) in
  (total = 0 ->
   compute_cgpa (map mk_sem_row pairs)
   = StError "No credits entered. CGPA requires credit-weighted average.") /\
  (total <> 0 ->
   compute_cgpa (map mk_sem_row pairs)
   = StSuccess (Fin (Qround_to GPA_DECIMALS (weighted / inject_Z total)))).
Proof.
  intros kept total weighted.
  unfold compute_cgpa. rewrite df_valid_kept. fold kept.
  rewrite !map_map. cbn [mk_sem_row sgpa credits fmul].
  rewrite sum_Z_Zsum.
  change (Zsum (map (fun x : Z * Q * Z => x.2) kept)) with total.
  rewrite <- (map_map (fun t : Z * Q * Z => (t.1.2 * inject_Z t.2)%Q) Fin kept).
  split.
  - intros ->. reflexivity.
  - intros Hnz. rewrite (proj2 (Z.eqb_neq total 0) Hnz). f_equal.
    apply weighted_div_value; [|reflexivity].
    change 0%Q with (inject_Z 0). rewrite inject_Z_injective. exact Hnz.
Qed.

Lemma Zsum_nonneg (l : list Z) : Forall (fun z => 0 <= z) l -> 0 <= Zsum l.
Proof.
  induction 1 as [|z l Hz _ IH]; cbn [Zsum fold_right]; [lia|]. fold (Zsum l). lia.
Qed.

(** X15.  When the counted semesters (those with [sgpa > 0]) have their
    SGPA between two 3-decimal numbers [lo] and [hi], and no credit is
    negative, the CGPA, if there is one, lies between [lo] and [hi] as
    well; so semesters that all have the same SGPA give back that SGPA. *)
Theorem compute_cgpa_between (pairs : list (Z * Q * Z)) (lo hi : Q) (kl kh : Z) :
  (lo == inject_Z kl / 1000)%Q ->
  (hi == inject_Z kh / 1000)%Q ->
  Forall (fun t : Z * Q * Z => ((0 < t.1.2)%Q -> (lo <= t.1.2 <= hi)%Q) /\ 0 <= t.2) pairs ->
  compute_cgpa (map mk_sem_row pairs)
  = StError "No credits entered. CGPA requires credit-weighted average." \/
  exists r, compute_cgpa (map mk_sem_row pairs) = StSuccess (Fin r) /\ (lo <= r <= hi)%Q.
Proof.
  intros El Eh H.
  assert (Hk : Forall (fun t : Z * Q * Z => (lo <= t.1.2 <= hi)%Q /\ 0 <= t.2)
                 (List.filter (fun t : Z * Q * Z => negb (Qle_bool t.1.2 0)) pairs)).
  { induction H as [|t pairs [Ht Hc] _ IH]; [constructor|].
    cbn [List.filter]. destruct (Qle_bool t.1.2 0) eqn:E; cbn [negb]; [exact IH|].
    constructor; [|exact IH]. apply Qle_bool_false in E. split; [apply Ht; exact E|exact Hc]. }
  destruct (compute_cgpa_value pairs) as [Hz Hnz]. cbv zeta in Hz, Hnz.
  set (kept := List.filter (fun t : Z * Q * Z => negb (Qle_bool t.1.2 0)) pairs) in *.
  destruct (Z.eq_dec (Zsum (map snd kept)) 0) as [E|N]; [left; apply Hz; exact E|right].
  rewrite (Hnz N). eexists. split; [reflexivity|].
  apply (Qround_to_between GPA_DECIMALS kl kh); [exact El|exact Eh|].
  set (l := map (fun t : Z * Q * Z => (t.1.2, inject_Z t.2)) kept).
  assert (Ew : map (fun t : Z * Q * Z => (t.1.2 * inject_Z t.2)%Q) kept
               = map (fun pc : Q * Q => (pc.1 * pc.2)%Q) l)
    by (subst l; rewrite map_map; reflexivity).
  assert (Et : (inject_Z (Zsum (map snd kept)) == Qsum (map snd l))%Q).
  { subst l. rewrite map_map. cbn [snd]. rewrite <- Qsum_inject_Z, map_map. reflexivity. }
  rewrite Ew, Et. apply weighted_mean_bounds.
  - subst l. apply Forall_map. eapply Forall_impl; [exact Hk|].
    intros t [Hr Hc]. cbn [fst snd]. split; [exact Hr|].
    change 0%Q with (inject_Z 0). rewrite <- Zle_Qle. exact Hc.
  - rewrite <- Et. change 0%Q with (inject_Z 0). rewrite <- Zlt_Qlt.
    assert (0 <= Zsum (map snd kept)); [|lia].
    apply Zsum_nonneg, Forall_map. eapply Forall_impl; [exact Hk|]. intros t [_ Hc]. exact Hc.
Qed.

Lemma compute_cgpa_between_witness :
  compute_cgpa (map mk_sem_row [(1, 8.125%Q, 20); (2, 0%Q, 0); (3, 8.125%Q, 24)])
  = StError "No credits entered. CGPA requires credit-weighted average." \/
  exists r,
    compute_cgpa (map mk_sem_row [(1, 8.125%Q, 20); (2, 0%Q, 0); (3, 8.125%Q, 24)])
    = StSuccess (Fin r) /\ (8.125 <= r <= 8.125)%Q.
Proof.
  apply (compute_cgpa_between _ 8.125 8.125 8125 8125).
  - reflexivity.
  - reflexivity.
  - repeat (constructor;
            [split; [intros H; first [split; unfold Qle; cbn; lia
                                     | exfalso; revert H; unfold Qlt; cbn; lia]
                    | cbn; lia]|]).
    constructor.
Defined.

(** ** Country conversion: every payload, ranges, monotonicity *)

Lemma convert_steps (cgpa10 : pyval) (cg : pyfloat) :
  py_float cgpa10 = Ok cg ->
  exists out,
    convert_cgpa_to_countries cgpa10 = Ok out /\
    payload_field out "Canada" "gpa" = Some (VFloat (Fin (canada_gpa (fmul cg (Fin 10))))) /\
    payload_field out "United Kingdom" "classification"
      = Some (VStr (uk_class (fmul cg (Fin 10)))) /\
    payload_field out "Germany" "grade"
      = Some (VFloat (py_round (fadd (Fin 1) (fdiv (fmul (Fin 3) (fsub (Fin 100) (fmul cg (Fin 10))))
                                          (Fin 100))) 2)) /\
    payload_field out "Sweden" "grade" = Some (VInt (sweden_grade (fmul cg (Fin 10)))).
Proof.
  intros H. unfold convert_cgpa_to_countries.
  destruct cgpa10; [discriminate H| | | |]; rewrite H; cbn [rbind];
    (eexists; split; [reflexivity|]; unfold payload_field; repeat split; by simplify_map_eq).
Qed.

Lemma convert_finite_fields (cgpa10 : pyval) (q : Q) :
  py_float cgpa10 = Ok (Fin q) ->
  exists out,
    convert_cgpa_to_countries cgpa10 = Ok out /\
    numeric_field out "United States" "gpa" = Some (Qround_to 2 (q / 10.0 * 4.0)) /\
    numeric_field out "Singapore" "gpa" = Some (Qround_to 2 (q / 10.0 * 4.0)) /\
    numeric_field out "Canada" "gpa" = Some (canada_gpa (Fin (q * 10))) /\
    numeric_field out "Germany" "grade"
      = Some (Qround_to 2 (1 + 3 * (100 + - (q * 10)) / 100)) /\
    numeric_field out "Australia" "gpa" = Some (inject_Z (australia_gpa (Fin (q * 10)))) /\
    numeric_field out "New Zealand" "gpa" = Some (inject_Z (australia_gpa (Fin (q * 10)))) /\
    numeric_field out "Netherlands" "score" = Some (Qround_to 2 (q * 10 / 10)) /\
    numeric_field out "Sweden" "grade" = Some (inject_Z (sweden_grade (Fin (q * 10)))) /\
    numeric_field out "France" "percent" = Some (q * 10)%Q /\
    payload_field out "United Kingdom" "classification" = Some (VStr (uk_class (Fin (q * 10)))).
Proof.
  intros H.
  destruct (convert_numeric cgpa10 (Fin q) H) as (out & Ho & _ & Hus & Hsg & Hau & Hnz & Hnl & Hfr).
  destruct (convert_steps cgpa10 (Fin q) H) as (out' & Ho' & Hca & Huk & Hde & Hse).
  rewrite Ho in Ho'. injection Ho' as <-.
  exists out. split; [exact Ho|]. unfold numeric_field.
  rewrite Hus, Hsg, Hau, Hnz, Hnl, Hfr, Hca, Hde, Hse.
  repeat split; try reflexivity. exact Huk.
Qed.

(** X17.  For a CGPA in [[0,10]] every figure of the conversion is on its
    country's scale: United States and Singapore in [[0,4]], Canada in
    [[2,4]], Germany in [[1,4]], Australia and New Zealand in [[2,7]],
    Sweden in [[1,5]], the Dutch score in [[0,10]] and the French percent
    in [[0,100]]. *)
Theorem convert_on_scale (cgpa10 : pyval) (q : Q) :
  py_float cgpa10 = Ok (Fin q) ->
  (0 <= q <= 10)%Q ->
  exists out,
    convert_cgpa_to_countries cgpa10 = Ok out /\
    (exists a, numeric_field out "United States" "gpa" = Some a /\ (0 <= a <= 4)%Q) /\
    (exists a, numeric_field out "Singapore" "gpa" = Some a /\ (0 <= a <= 4)%Q) /\
    (exists a, numeric_field out "Canada" "gpa" = Some a /\ (2 <= a <= 4)%Q) /\
    (exists a, numeric_field out "Germany" "grade" = Some a /\ (1 <= a <= 4)%Q) /\
    (exists a, numeric_field out "Australia" "gpa" = Some a /\ (2 <= a <= 7)%Q) /\
    (exists a, numeric_field out "New Zealand" "gpa" = Some a /\ (2 <= a <= 7)%Q) /\
    (exists a, numeric_field out "Sweden" "grade" = Some a /\ (1 <= a <= 5)%Q) /\
    (exists a, numeric_field out "Netherlands" "score" = Some a /\ (0 <= a <= 10)%Q) /\
    (exists a, numeric_field out "France" "percent" = Some a /\ (0 <= a <= 100)%Q).
Proof.
  intros H [H0 H10].
  destruct (convert_finite_fields cgpa10 q H)
    as (out & Ho & Hus & Hsg & Hca & Hde & Hau & Hnz & Hnl & Hse & Hfr & _).
  exists out. split; [exact Ho|].
  assert (Rus : (0 <= Qround_to 2 (q / 10.0 * 4.0) <= 4)%Q).
  { apply (Qround_to_between 2 0 400); [reflexivity|reflexivity|].
    assert (E : (q / 10.0 * 4.0 == q * (2 # 5))%Q) by field. rewrite E. lra. }
  assert (Rde : (1 <= Qround_to 2 (1 + 3 * (100 + - (q * 10)) / 100) <= 4)%Q).
  { apply (Qround_to_between 2 100 400); [reflexivity|reflexivity|].
    assert (E : (1 + 3 * (100 + - (q * 10)) / 100 == 4 - q * (3 # 10))%Q) by field.
    rewrite E. lra. }
  assert (Rnl : (0 <= Qround_to 2 (q * 10 / 10) <= 10)%Q).
  { apply (Qround_to_between 2 0 1000); [reflexivity|reflexivity|].
    assert (E : (q * 10 / 10 == q)%Q) by field. rewrite E. lra. }
  assert (Rfr : (0 <= q * 10 <= 100)%Q) by lra.
  assert (Rca : (2 <= canada_gpa (Fin (q * 10)) <= 4)%Q).
  { unfold canada_gpa.
    repeat match goal with |- context [fge ?a ?b] => destruct (fge a b) end;
      split; unfold Qle; cbn; lia. }
  assert (Rau : (2 <= inject_Z (australia_gpa (Fin (q * 10))) <= 7)%Q).
  { unfold australia_gpa.
    repeat match goal with |- context [fge ?a ?b] => destruct (fge a b) end;
      split; unfold Qle; cbn; lia. }
  assert (Rse : (1 <= inject_Z (sweden_grade (Fin (q * 10))) <= 5)%Q).
  { unfold sweden_grade.
    repeat match goal with |- context [fge ?a ?b] => destruct (fge a b) end;
      split; unfold Qle; cbn; lia. }
  repeat split; eexists; (split; [eassumption|assumption]).
Qed.

Lemma convert_on_scale_witness :
  exists out,
    convert_cgpa_to_countries (VFloat (Fin 10)) = Ok out /\
    (exists a, numeric_field out "United States" "gpa" = Some a /\ (0 <= a <= 4)%Q) /\
    (exists a, numeric_field out "Singapore" "gpa" = Some a /\ (0 <= a <= 4)%Q) /\
    (exists a, numeric_field out "Canada" "gpa" = Some a /\ (2 <= a <= 4)%Q) /\
    (exists a, numeric_field out "Germany" "grade" = Some a /\ (1 <= a <= 4)%Q) /\
    (exists a, numeric_field out "Australia" "gpa" = Some a /\ (2 <= a <= 7)%Q) /\
    (exists a, numeric_field out "New Zealand" "gpa" = Some a /\ (2 <= a <= 7)%Q) /\
    (exists a, numeric_field out "Sweden" "grade" = Some a /\ (1 <= a <= 5)%Q) /\
    (exists a, numeric_field out "Netherlands" "score" = Some a /\ (0 <= a <= 10)%Q) /\
    (exists a, numeric_field out "France" "percent" = Some a /\ (0 <= a <= 100)%Q).
Proof.
  apply (convert_on_scale (VFloat (Fin 10)) 10); [reflexivity|].
  split; unfold Qle; cbn; lia.
Defined.

Lemma canada_gpa_mono (a b : Q) :
  (a <= b)%Q -> (canada_gpa (Fin a) <= canada_gpa (Fin b))%Q.
Proof.
  intros H. unfold canada_gpa, fge. rewrite !fle_Fin.
  qcases; unfold Qle; cbn; lia.
Qed.

Lemma australia_gpa_mono (a b : Q) :
  (a <= b)%Q -> australia_gpa (Fin a) <= australia_gpa (Fin b).
Proof.
  intros H. unfold australia_gpa, fge. rewrite !fle_Fin. qcases; lia.
Qed.

Lemma sweden_grade_mono (a b : Q) :
  (a <= b)%Q -> sweden_grade (Fin a) <= sweden_grade (Fin b).
Proof.
  intros H. unfold sweden_grade, fge. rewrite !fle_Fin. qcases; lia.
Qed.

(** X18.  A higher CGPA never gets a lower figure: the figures of the
    United States, Canada, Australia, the Netherlands, Sweden, France,
    Singapore and New Zealand grow (weakly) with the CGPA, and the
    German grade, where lower is better, decreases. *)
Theorem convert_monotone (q1 q2 : Q) :
  (q1 <= q2)%Q ->
  exists out1 out2,
    convert_cgpa_to_countries (VFloat (Fin q1)) = Ok out1 /\
    convert_cgpa_to_countries (VFloat (Fin q2)) = Ok out2 /\
    Forall (fun cf : string * string =>
              exists a1 a2,
                numeric_field out1 cf.1 cf.2 = Some a1 /\
                numeric_field out2 cf.1 cf.2 = Some a2 /\ (a1 <= a2)%Q)
           rising_fields /\
    (exists g1 g2,
        numeric_field out1 "Germany" "grade" = Some g1 /\
        numeric_field out2 "Germany" "grade" = Some g2 /\ (g2 <= g1)%Q).
Proof.
  intros H.
  destruct (convert_finite_fields (VFloat (Fin q1)) q1 eq_refl)
    as (out1 & Ho1 & Hus1 & Hsg1 & Hca1 & Hde1 & Hau1 & Hnz1 & Hnl1 & Hse1 & Hfr1 & _).
  destruct (convert_finite_fields (VFloat (Fin q2)) q2 eq_refl)
    as (out2 & Ho2 & Hus2 & Hsg2 & Hca2 & Hde2 & Hau2 & Hnz2 & Hnl2 & Hse2 & Hfr2 & _).
  exists out1, out2. split; [exact Ho1|]. split; [exact Ho2|].
  assert (Hp : (q1 * 10 <= q2 * 10)%Q) by lra.
  assert (Mus : (Qround_to 2 (q1 / 10.0 * 4.0) <= Qround_to 2 (q2 / 10.0 * 4.0))%Q).
  { apply Qround_to_mono.
    assert (E : forall q, (q / 10.0 * 4.0 == q * (2 # 5))%Q) by (intros q; field).
    rewrite !E. lra. }
  assert (Mnl : (Qround_to 2 (q1 * 10 / 10) <= Qround_to 2 (q2 * 10 / 10))%Q).
  { apply Qround_to_mono.
    assert (E : forall q, (q * 10 / 10 == q)%Q) by (intros q; field).
    rewrite !E. exact H. }
  assert (Mde : (Qround_to 2 (1 + 3 * (100 + - (q2 * 10)) / 100)
                 <= Qround_to 2 (1 + 3 * (100 + - (q1 * 10)) / 100))%Q).
  { apply Qround_to_mono.
    assert (E : forall q, (1 + 3 * (100 + - (q * 10)) / 100 == 4 - q * (3 # 10))%Q)
      by (intros q; field).
    rewrite !E. lra. }
  split.
  - unfold rising_fields. repeat constructor; cbn [fst snd]; eexists; eexists;
      (split; [eassumption|split; [eassumption|]]);
      first [ exact Mus | exact Mnl | exact Hp
            | apply canada_gpa_mono; exact Hp
            | rewrite <- Zle_Qle; apply australia_gpa_mono; exact Hp
            | rewrite <- Zle_Qle; apply sweden_grade_mono; exact Hp ].
  - eexists. eexists. split; [exact Hde1|]. split; [exact Hde2|exact Mde].
Qed.

Lemma convert_monotone_witness :
  exists out1 out2,
    convert_cgpa_to_countries (VFloat (Fin 6.5)) = Ok out1 /\
    convert_cgpa_to_countries (VFloat (Fin 9.1)) = Ok out2 /\
    Forall (fun cf : string * string =>
              exists a1 a2,
                numeric_field out1 cf.1 cf.2 = Some a1 /\
                numeric_field out2 cf.1 cf.2 = Some a2 /\ (a1 <= a2)%Q)
           rising_fields /\
    (exists g1 g2,
        numeric_field out1 "Germany" "grade" = Some g1 /\
        numeric_field out2 "Germany" "grade" = Some g2 /\ (g2 <= g1)%Q).
Proof. apply (convert_monotone 6.5 9.1). unfold Qle; cbn; lia. Defined.

(** X19.  The British classification in terms of the CGPA: First from
    7, 2:1 from 6, 2:2 from 5, Third from 4, Fail below 4; a NaN is not
    refused but classified Fail. *)
Theorem uk_classification_by_cgpa :
  (forall q : Q,
     exists out c,
       convert_cgpa_to_countries (VFloat (Fin q)) = Ok out /\
       payload_field out "United Kingdom" "classification" = Some (VStr c) /\
       ((7 <= q)%Q -> c = "First") /\
       ((6 <= q < 7)%Q -> c = "2:1") /\
       ((5 <= q < 6)%Q -> c = "2:2") /\
       ((4 <= q < 5)%Q -> c = "Third") /\
       ((q < 4)%Q -> c = "Fail")) /\
  (exists out,
     convert_cgpa_to_countries (VFloat NaN) = Ok out /\
     payload_field out "United Kingdom" "classification" = Some (VStr "Fail")).
Proof.
  split.
  - intros q.
    destruct (convert_steps (VFloat (Fin q)) (Fin q) eq_refl) as (out & Ho & _ & Huk & _).
    exists out. eexists. split; [exact Ho|]. split; [exact Huk|].
    cbn [fmul]. unfold uk_class, fge. rewrite !fle_Fin.
    repeat split; intros Hq; qcases; reflexivity.
  - eexists. split; reflexivity.
Qed.

(** ** The conversion page *)

Lemma us_advice_of_float (out : gmap string (gmap string pyval)) (f : pyfloat) :
  payload_field out "United States" "gpa" = Some (VFloat f) ->
  exists a, us_advice out = Ok a.
Proof.
  intros H. unfold us_advice. rewrite H.
  destruct (py_truthy (Some (VFloat f))); cbn [py_ge rbind]; [|eexists; reflexivity].
  destruct (fge f (Fin 3.5)); [eexists; reflexivity|].
  destruct (fge f (Fin 3.0)); eexists; reflexivity.
Qed.

(** X20.  For an input that [float()] reads and a country of the
    selection list, the page always finds a payload to show, never
    "Conversion not found" and never an exception; it adds an advice
    exactly when the country is the United States. *)
Theorem conversion_page_finds_country (cgpa_input : pyval) (cg : pyfloat) (country : string) :
  py_float cgpa_input = Ok cg ->
  country ∈ TOP_COUNTRIES ->
  exists payload adv,
    conversion_page cgpa_input country = Ok (Some payload, adv) /\
    (adv = None <-> country <> "United States").
Proof.
  intros H Hc.
  destruct (convert_numeric cgpa_input cg H) as (out & Ho & Hd & Hus & _).
  assert (Hin : country ∈ dom out) by (rewrite Hd; apply elem_of_list_to_set; exact Hc).
  apply elem_of_dom in Hin as [payload Hp].
  unfold conversion_page. rewrite Ho. cbn [rbind].
  destruct (String.eqb_spec country "United States") as [->|Hne].
  - destruct (us_advice_of_float out _ Hus) as [a Ha]. rewrite Ha. cbn [rbind].
    exists payload, (Some a). rewrite Hp. split; [reflexivity|].
    split; [discriminate|intros F; contradiction].
  - exists payload, None. rewrite Hp. split; [reflexivity|]. split; [intros _; exact Hne|reflexivity].
Qed.

Lemma conversion_page_finds_country_witness :
  exists payload adv,
    conversion_page (VFloat (Fin 8.0)) "Germany" = Ok (Some payload, adv) /\
    (adv = None <-> "Germany" <> "United States").
Proof.
  apply (conversion_page_finds_country (VFloat (Fin 8.0)) (Fin 8.0) "Germany").
  - reflexivity.
  - unfold TOP_COUNTRIES. set_solver.
Defined.

Lemma round_reaches (n : nat) (t x : Q) :
  (Qround_to n (t - (1 # 2) / inject_Z (pow10 n)) == t)%Q ->
  ((t <= Qround_to n x)%Q <-> (t - (1 # 2) / inject_Z (pow10 n) <= x)%Q).
Proof.
  intros Ht. pose proof (pow10_pos n) as HP. split.
  - intros H. destruct (Qlt_le_dec x (t - (1 # 2) / inject_Z (pow10 n))) as [L|L]; [|exact L].
    exfalso.
    destruct (Qround_to_rounded n x) as [_ Hd].
    assert (Hr : (Qround_to n x - x <= (1 # 2) / inject_Z (pow10 n))%Q).
    { apply Qle_shift_div_l; [exact HP|].
      eapply Qle_trans; [|exact Hd].
      apply Qmult_le_compat_r; [apply Qle_Qabs|lra]. }
    lra.
  - intros H. rewrite <- Ht. apply Qround_to_mono. exact H.
Qed.

(** X21.  The advice shown for the United States, in terms of the CGPA
    entered: "Excellent" from 8.7375 (a rounded US figure of at least
    3.5), "Good" from 7.4875 (at least 3.0), and the invitation to
    improve below. *)
Theorem us_advice_by_cgpa (q : Q) :
  exists payload a,
    conversion_page (VFloat (Fin q)) "United States" = Ok (Some payload, Some a) /\
    (a = Excellent <-> (8.7375 <= q)%Q) /\
    (a = Good <-> (7.4875 <= q < 8.7375)%Q) /\
    (a = Improve <-> (q < 7.4875)%Q).
Proof.
  destruct (convert_numeric (VFloat (Fin q)) (Fin q) eq_refl) as (out & Ho & Hd & Hus & _).
  assert (Hin : "United States" ∈ dom out)
    by (rewrite Hd; unfold TOP_COUNTRIES; set_solver).
  apply elem_of_dom in Hin as [payload Hp].
  unfold conversion_page. rewrite Ho. cbn [rbind String.eqb Ascii.eqb Bool.eqb].
  unfold us_advice. rewrite Hus, Hp.
  change (py_round (fmul (fdiv (Fin q) (Fin 10.0)) (Fin 4.0)) 2)
    with (Fin (Qround_to 2 (q / 10.0 * 4.0))).
  set (r := Qround_to 2 (q / 10.0 * 4.0)).
  assert (E : (q / 10.0 * 4.0 == q * (2 # 5))%Q) by field.
  assert (H35 : (3.5 <= r)%Q <-> (8.7375 <= q)%Q).
  { subst r. rewrite (round_reaches 2 3.5) by reflexivity.
    assert (C : ((1 # 2) / inject_Z (pow10 2) == 0.005)%Q) by reflexivity.
    rewrite C, E. split; lra. }
  assert (H30 : (3.0 <= r)%Q <-> (7.4875 <= q)%Q).
  { subst r. rewrite (round_reaches 2 3.0) by reflexivity.
    assert (C : ((1 # 2) / inject_Z (pow10 2) == 0.005)%Q) by reflexivity.
    rewrite C, E. split; lra. }
  clearbody r. cbn [py_truthy py_ge]. unfold fge. rewrite !fle_Fin.
  destruct (Qis_zero r) eqn:Z; cbn [negb rbind].
  - assert (Hz : (r == 0)%Q).
    { unfold Qis_zero in Z. destruct (Qcompare_spec r 0); [assumption|discriminate|discriminate]. }
    assert (N35 : ~ (8.7375 <= q)%Q) by (rewrite <- H35; lra).
    assert (N30 : ~ (7.4875 <= q)%Q) by (rewrite <- H30; lra).
    exists payload, Improve. split; [reflexivity|].
    repeat split; intros; first [reflexivity | discriminate | lra | exfalso; lra].
  - destruct (Qle_bool 3.5 r) eqn:A; [apply Qle_bool_true in A|apply Qle_bool_false in A];
      cbn [rbind].
    + apply H35 in A. exists payload, Excellent. split; [reflexivity|].
      repeat split; intros; first [reflexivity | discriminate | assumption | lra | exfalso; lra].
    + assert (N35 : ~ (8.7375 <= q)%Q) by (rewrite <- H35; lra).
      destruct (Qle_bool 3.0 r) eqn:B; [apply Qle_bool_true in B|apply Qle_bool_false in B];
        cbn [rbind].
      * apply H30 in B. exists payload, Good. split; [reflexivity|].
        repeat split; intros; first [reflexivity | discriminate | lra | exfalso; lra].
      * assert (N30 : ~ (7.4875 <= q)%Q) by (rewrite <- H30; lra).
        exists payload, Improve. split; [reflexivity|].
        repeat split; intros; first [reflexivity | discriminate | lra | exfalso; lra].
Qed.

(** ** The planner page and the rating form *)

(** X22.  From a state whose history reads as a list: the planner page
    writes nothing for a target it refuses, and otherwise records
    exactly one entry, carrying the score asked for and the rating; the
    rating form records exactly one entry, carrying the rating. *)
Theorem rating_pages_save (fs : gmap string file) (h : list json)
    (ts : string) (student hallticket program : json) :
  (load_history fs).1 = Ok (JList h) ->
  (forall cie target_gp plan_rows rating msg,
     planner_needed cie target_gp = StError msg ->
     planner_page ts student hallticket program cie target_gp plan_rows rating fs
     = (Ok (StError msg), fs)) /\
  (forall cie target_gp plan_rows rating needed,
     planner_needed cie target_gp = StSuccess needed ->
     exists fs' entry,
       planner_page ts student hallticket program cie target_gp plan_rows rating fs
       = (Ok (StSuccess needed), fs') /\
       load_history fs' = (Ok (JList (h ++ [entry])), fs') /\
       dict_get entry "needed_in_see" = Ok (JFloat needed) /\
       dict_get entry "rating" = Ok (JInt rating)) /\
  (forall rating feedback,
     exists fs' entry,
       submit_rating ts student hallticket program rating feedback fs = (Ok tt, fs') /\
       load_history fs' = (Ok (JList (h ++ [entry])), fs') /\
       dict_get entry "action" = Ok (JStr "app_rating") /\
       dict_get entry "rating" = Ok (JInt rating)).
Proof.
  intros Hh. split; [|split].
  - intros cie target_gp plan_rows rating msg E. unfold planner_page. rewrite E. reflexivity.
  - intros cie target_gp plan_rows rating needed E. unfold planner_page. rewrite E.
    unfold mbind, io_mbind, io_bind, mret, io_mret, io_ret.
    rewrite (append_history_list fs h _ Hh).
    eexists. eexists. split; [reflexivity|]. split; [apply load_history_written|].
    split; reflexivity.
  - intros rating feedback. unfold submit_rating.
    rewrite (append_history_list fs h _ Hh).
    eexists. eexists. split; [reflexivity|]. split; [apply load_history_written|].
    split; reflexivity.
Qed.

Lemma rating_pages_save_witness :
  exists fs' entry,
    submit_rating "20250101_101500" (JStr "D. Soumith") JNull (JStr "B.Tech") 5 "useful"
      (∅ : gmap string file) = (Ok tt, fs') /\
    load_history fs' = (Ok (JList ([] ++ [entry])), fs') /\
    dict_get entry "action" = Ok (JStr "app_rating") /\
    dict_get entry "rating" = Ok (JInt 5).
Proof.
  refine (proj2 (proj2 (rating_pages_save ∅ [] "20250101_101500" (JStr "D. Soumith") JNull
                          (JStr "B.Tech") _)) 5 "useful").
  reflexivity.
Defined.

(** ** The plan of a saved planner entry *)

Lemma assoc_get_set_eq (key : string) (v : json) (fields : list (string * json)) :
  assoc_get key (assoc_set key v fields) = Some v.
Proof.
  induction fields as [|[k w] fields IH]; cbn [assoc_set assoc_get].
  - rewrite String.eqb_refl. reflexivity.
  - destruct (String.eqb k key) eqn:E; cbn [assoc_get]; rewrite E; [reflexivity|exact IH].
Qed.

Lemma assoc_get_set_ne (key key' : string) (v : json) (fields : list (string * json)) :
  key <> key' ->
  assoc_get key' (assoc_set key v fields) = assoc_get key' fields.
Proof.
  intros Hne. induction fields as [|[k w] fields IH]; cbn [assoc_set assoc_get].
  - destruct (String.eqb_spec key key'); [contradiction|reflexivity].
  - destruct (String.eqb_spec k key) as [->|Hk]; cbn [assoc_get].
    + destruct (String.eqb_spec key key'); [contradiction|reflexivity].
    + rewrite IH. reflexivity.
Qed.

Lemma assoc_set_keys (key : string) (v : json) (fields : list (string * json)) :
  NoDup (map fst fields) ->
  NoDup (map fst (assoc_set key v fields)) /\
  (forall k, k ∈ map fst (assoc_set key v fields) <-> k = key \/ k ∈ map fst fields).
Proof.
  induction fields as [|[k w] fields IH]; cbn [assoc_set map fst]; intros Hnd.
  - split; [repeat constructor; apply not_elem_of_nil|].
    intros k. rewrite list_elem_of_singleton, elem_of_nil. tauto.
  - apply NoDup_cons in Hnd as [Hk Hnd]. destruct (IH Hnd) as [IH1 IH2].
    destruct (String.eqb_spec k key) as [->|Hne]; cbn [map fst].
    + split; [apply NoDup_cons; split; assumption|]. intros k'. rewrite elem_of_cons. tauto.
    + split.
      * apply NoDup_cons. split; [|exact IH1]. rewrite IH2. intros [F|F]; [congruence|contradiction].
      * intros k'. rewrite !elem_of_cons, IH2. tauto.
Qed.

Lemma plans_text_snoc (plan_rows : list (string * string)) (r : string * string) :
  plans_text (plan_rows ++ [r])
  = assoc_set r.1 (JDict [ ("difficulty", JStr r.2);
                           ("steps", JList (map JStr (study_steps r.2))) ])
      (plans_text plan_rows).
Proof. unfold plans_text. rewrite fold_left_app. reflexivity. Qed.

Lemma last_difficulty_snoc (subj : string) (plan_rows : list (string * string))
    (r : string * string) :
  last_difficulty subj (plan_rows ++ [r])
  = if String.eqb r.1 subj then Some r.2 else last_difficulty subj plan_rows.
Proof.
  induction plan_rows as [|x plan_rows IH]; cbn [app last_difficulty].
  - destruct (String.eqb r.1 subj); reflexivity.
  - rewrite IH. destruct (String.eqb r.1 subj); [reflexivity|].
    destruct (last_difficulty subj plan_rows); reflexivity.
Qed.

(** X23.  The plan saved with a planner entry has one item per subject
    name: no name appears twice, a name has an item exactly when some
    row of the plan has it, and when a name is given in several rows the
    item is that of the last one, with the three steps of its
    difficulty. *)
Theorem plans_text_last_wins (plan_rows : list (string * string)) :
  NoDup (map fst (plans_text plan_rows)) /\
  (forall subj, subj ∈ map fst (plans_text plan_rows) <-> subj ∈ map fst plan_rows) /\
  (forall subj,
     assoc_get subj (plans_text plan_rows)
     = match last_difficulty subj plan_rows with
       | Some d => Some (JDict [ ("difficulty", JStr d);
                                 ("steps", JList (map JStr (study_steps d))) ])
       | None => None
       end) /\
  (forall d, length (study_steps d) = 3%nat).
Proof.
  split; [|split; [|split]].
  - induction plan_rows as [|r plan_rows IH] using rev_ind; [constructor|].
    rewrite plans_text_snoc. apply assoc_set_keys. exact IH.
  - induction plan_rows as [|r plan_rows IH] using rev_ind; intros subj; [reflexivity|].
    rewrite plans_text_snoc, map_app, elem_of_app. cbn [map]. rewrite list_elem_of_singleton.
    assert (Hnd : NoDup (map fst (plans_text plan_rows))).
    { clear. induction plan_rows as [|r plan_rows IH] using rev_ind; [constructor|].
      rewrite plans_text_snoc. apply assoc_set_keys. exact IH. }
    rewrite (proj2 (assoc_set_keys r.1 _ _ Hnd) subj), IH. tauto.
  - induction plan_rows as [|r plan_rows IH] using rev_ind; intros subj; [reflexivity|].
    rewrite plans_text_snoc, last_difficulty_snoc.
    destruct (String.eqb_spec r.1 subj) as [<-|Hne].
    + apply assoc_get_set_eq.
    + rewrite assoc_get_set_ne by exact Hne. apply IH.
  - intros d. unfold study_steps.
    destruct (String.eqb d "Easy"); [reflexivity|].
    destruct (String.eqb d "Moderate"); reflexivity.
Qed.

(** ** Subject totals *)

(** X24.  For marks within the form's bounds the two caps never apply:
    the total is exactly the mean of the two mid-term marks plus the
    presentation and exam marks; it lies in [[0,100]], is a multiple of
    one half, and the lookup gives it a grade from the table. *)
Theorem subject_total_uncapped (mid1 mid2 pres see : Z) :
  0 <= mid1 <= 40 -> 0 <= mid2 <= 40 -> 0 <= pres <= 10 -> 0 <= see <= 50 ->
  subject_total mid1 mid2 pres see
  = Fin ((inject_Z mid1 + inject_Z mid2) / 2.0 + inject_Z pres + inject_Z see) /\
  exists q lbl gp,
    subject_total mid1 mid2 pres see = Fin q /\
    (q == inject_Z (mid1 + mid2 + 2 * pres + 2 * see) / 2)%Q /\
    (0 <= q <= 100)%Q /\
    percent_to_grade_point (VFloat (Fin q)) = (lbl, Fin gp) /\
    lbl <> "" /\ (0 <= gp <= 10)%Q.
Proof.
  intros H1 H2 H3 H4.
  assert (B : forall z lo hi : Z, lo <= z <= hi -> (inject_Z lo <= inject_Z z <= inject_Z hi)%Q)
    by (intros z lo hi [Ha Hb]; split; rewrite <- Zle_Qle; assumption).
  apply B in H1 as Q1. apply B in H2 as Q2. apply B in H3 as Q3. apply B in H4 as Q4.
  change (inject_Z 0) with 0%Q in *. change (inject_Z 40) with 40%Q in *.
  change (inject_Z 10) with 10%Q in *. change (inject_Z 50) with 50%Q in *.
  assert (A : (0 <= (inject_Z mid1 + inject_Z mid2) / 2.0 <= 40)%Q).
  { assert (E : ((inject_Z mid1 + inject_Z mid2) / 2.0
                 == (inject_Z mid1 + inject_Z mid2) * (1 # 2))%Q) by field.
    rewrite E. lra. }
  assert (Ev : subject_total mid1 mid2 pres see
               = Fin ((inject_Z mid1 + inject_Z mid2) / 2.0 + inject_Z pres + inject_Z see)).
  { unfold subject_total. cbn [fadd fdiv]. change (Qis_zero 2.0) with false. cbn iota.
    unfold fgt. cbn [fadd]. rewrite flt_Fin.
    destruct (Qltb 50.0 ((inject_Z mid1 + inject_Z mid2) / 2.0 + inject_Z pres)) eqn:E1;
      [apply Qltb_true in E1; exfalso; lra|]. cbn [fadd]. rewrite flt_Fin.
    destruct (Qltb 100.0 ((inject_Z mid1 + inject_Z mid2) / 2.0 + inject_Z pres + inject_Z see))
      eqn:E2; [apply Qltb_true in E2; exfalso; lra|reflexivity]. }
  split; [exact Ev|].
  destruct (subject_total_on_grid mid1 mid2 pres see H1 H2 H3 H4) as (q & Hq & Hr & Hd).
  destruct (lookup_on_grid q Hr Hd) as (mn & mx & lbl & gp & _ & Hl & _).
  exists q, lbl, gp. split; [exact Hq|].
  assert (Eq : q = ((inject_Z mid1 + inject_Z mid2) / 2.0 + inject_Z pres + inject_Z see)%Q)
    by congruence.
  split; [|split; [exact Hr|split; [exact Hl|split; [|exact (graded_point_range q lbl gp Hl)]]]].
  - rewrite Eq, !inject_Z_plus, !inject_Z_mult. change (inject_Z 2) with 2%Q. field.
  - intros ->. pose proof (lookup_cases q) as Hc. cbv zeta in Hc. rewrite Hl in Hc.
    repeat (destruct Hc as [[_ Hc]|Hc]; [discriminate Hc|]).
    destruct Hc as [_ Hc]. discriminate Hc.
Qed.

Lemma subject_total_uncapped_witness :
  subject_total 31 36 8 41 = Fin ((inject_Z 31 + inject_Z 36) / 2.0 + inject_Z 8 + inject_Z 41)
  /\ percent_to_grade_point (VFloat (subject_total 31 36 8 41)) = ("A+", Fin 9.0).
Proof.
  split; [|reflexivity].
  apply (subject_total_uncapped 31 36 8 41); lia.
Defined.

(** ** Deleting files *)

(** X25.  Deleting a listed file other than the history leaves the
    history as it reads; deleting the history file itself makes it read
    as the empty list, so that the next entry recorded starts a new
    history. *)
Theorem delete_file_and_history (fs : gmap string file) (name : string) (x : file) :
  fs !! name = Some x ->
  exists fs',
    delete_file name fs = (Ok tt, fs') /\
    fs' !! name = None /\
    (name <> HISTORY_FILE -> (load_history fs').1 = (load_history fs).1) /\
    (name = HISTORY_FILE ->
     load_history fs' = (Ok (JList []), fs') /\
     forall entry, exists fs'',
       append_history entry fs' = (Ok tt, fs'') /\
       load_history fs'' = (Ok (JList [entry]), fs'')).
Proof.
  intros H. unfold delete_file. rewrite H. eexists. split; [reflexivity|].
  split; [apply lookup_delete_eq|]. split.
  - intros Hn. unfold load_history, io_try, read_json.
    rewrite lookup_delete_ne by exact Hn.
    destruct (fs !! HISTORY_FILE) as [[|v]|]; reflexivity.
  - intros ->.
    assert (L : load_history (delete HISTORY_FILE fs) = (Ok (JList []), delete HISTORY_FILE fs)).
    { unfold load_history, io_try, read_json. rewrite lookup_delete_eq. reflexivity. }
    split; [exact L|]. intros entry. eexists.
    rewrite (append_history_list _ [] entry) by (rewrite L; reflexivity).
    split; [reflexivity|]. apply load_history_written.
Qed.

Lemma delete_file_and_history_witness :
  exists fs',
    delete_file "history.json" {[ "history.json" := Json (JList [JStr "old"]) ]} = (Ok tt, fs') /\
    fs' !! "history.json" = None /\
    ("history.json" <> HISTORY_FILE ->
     (load_history fs').1
     = (load_history ({[ "history.json" := Json (JList [JStr "old"]) ]})).1) /\
    ("history.json" = HISTORY_FILE ->
     load_history fs' = (Ok (JList []), fs') /\
     forall entry, exists fs'',
       append_history entry fs' = (Ok tt, fs'') /\
       load_history fs'' = (Ok (JList [entry]), fs'')).
Proof.
  apply (delete_file_and_history {[ "history.json" := Json (JList [JStr "old"]) ]}
           "history.json" (Json (JList [JStr "old"]))).
  reflexivity.
Defined.
